(** * Carteira digital: ledger of wallets, balances and movements

    Shallow embedding of [api/persistence/repositories/carteira_repository.py]
    and [api/services/carteira_service.py].

    Modelling choices.
    - The database is a record [BD] with one field per table.  The table
      [saldo_carteira] has the composite key (endereco_carteira, id_moeda)
      that [ON DUPLICATE KEY UPDATE] relies on, so it is a finite map.
    - Every repository method opens its own [with get_connection()] block:
      it is one atomic step on [BD].  A service method is a sequence of such
      steps in a state-and-exception monad; a raised [ValueError] carries the
      database as it is at the moment of the [raise].
    - Amounts are Python [float]s.  A finite binary64 value is a rational
      number and is modelled as such, so the comparison of two floats is the
      comparison of two rationals; the product and the sum of two floats are
      the exact results rounded to binary64, the rounding being a field of
      [Ambiente] (see "Python floats" below).  NaN and the infinities are
      outside the model, as are magnitudes beyond the normal range.
    - The arithmetic of the SQL statements ([saldo + :valor],
      [saldo - :total]) is that of the column type, which the schema fixes
      and the sources do not show; it is taken to be exact, and the
      conversion of a stored balance to a [float] on reading to keep its
      value.
    - [hashlib.sha256], [str.upper], the [os.getenv] fee rates and the
      Coinbase spot price are fields of the record [Ambiente]. *)

From Stdlib Require Import ZArith QArith Qabs Lqa Lia Ascii String.
From Stdlib Require PrimFloat FloatOps SpecFloat.
From stdpp Require Import gmap strings list fin_maps sorting.

Local Open Scope Z_scope.
Local Open Scope string_scope.

(** ** Data model (carteira_models.py and the rows of the tables) *)

Inductive Status : Type := ATIVA | BLOQUEADA.

Definition Status_eqb (a b : Status) : bool :=
  match a, b with
  | ATIVA, ATIVA | BLOQUEADA, BLOQUEADA => true
  | _, _ => false
  end.

(** A row of the table [carteira]. *)
Record CarteiraRow : Type := mkCarteiraRow {
  endereco_carteira : string;
  data_criacao : Z;
  status : Status;
  hash_chave_privada : string
}.

Inductive TipoMovimento : Type := DEPOSITO | SAQUE.

(** A row of the table [deposito_saque]. *)
Record MovimentoRow : Type := mkMovimentoRow {
  mov_id : Z;
  mov_endereco : string;
  mov_id_moeda : Z;
  mov_tipo : TipoMovimento;
  mov_valor : Q;
  mov_taxa_valor : Q
}.

(** A row of the table [conversao]. *)
Record ConversaoRow : Type := mkConversaoRow {
  conv_id : Z;
  conv_endereco : string;
  conv_id_moeda_origem : Z;
  conv_id_moeda_destino : Z;
  conv_valor_origem : Q;
  conv_valor_destino : Q;
  conv_taxa_percentual : Q;
  conv_taxa_valor : Q;
  conv_cotacao_utilizada : Q
}.

(** A row of the table [transferencia]. *)
Record TransferenciaRow : Type := mkTransferenciaRow {
  transf_id : Z;
  transf_endereco_origem : string;
  transf_endereco_destino : string;
  transf_id_moeda : Z;
  transf_valor : Q;
  transf_taxa_valor : Q
}.

(** The whole stored state. *)
Record BD : Type := mkBD {
  carteira : list CarteiraRow;
  moeda : list (string * Z);
  saldo_carteira : gmap (string * Z) Q;
  deposito_saque : list MovimentoRow;
  conversao : list ConversaoRow;
  transferencia : list TransferenciaRow
}.

Record OperacaoDeposito : Type := mkOperacaoDeposito {
  dep_codigo_moeda : string;
  dep_valor : Q
}.

Record OperacaoSaque : Type := mkOperacaoSaque {
  saq_codigo_moeda : string;
  saq_valor : Q;
  saq_chave_privada : string
}.

Record OperacaoConversao : Type := mkOperacaoConversao {
  cv_moeda_origem : string;
  cv_moeda_destino : string;
  cv_valor : Q;
  cv_chave_privada : string
}.

Record OperacaoTransferencia : Type := mkOperacaoTransferencia {
  tr_endereco_destino : string;
  tr_codigo_moeda : string;
  tr_valor : Q;
  tr_chave_privada : string
}.

Record ReciboMovimentacao : Type := mkReciboMovimentacao {
  id_movimento : Z;
  tipo : TipoMovimento;
  valor : Q;
  taxa : Q;
  saldo_atual : Q
}.

Record ReciboConversao : Type := mkReciboConversao {
  id_conversao : Z;
  rc_moeda_origem : string;
  rc_moeda_destino : string;
  valor_convertido : Q;
  valor_recebido : Q;
  rc_taxa_paga : Q;
  cotacao : Q
}.

Record ReciboTransferencia : Type := mkReciboTransferencia {
  id_transferencia : Z;
  rt_endereco_origem : string;
  rt_endereco_destino : string;
  rt_moeda : string;
  valor_transferido : Q;
  rt_taxa_paga : Q
}.

(** ** Errors

    The service raises [ValueError] with a message; one constructor per
    message of carteira_service.py. *)

Inductive ValueError : Type :=
| CarteiraNaoEncontrada            (* "Carteira nao encontrada" *)
| CarteiraOrigemNaoEncontrada      (* "Carteira de origem nao encontrada" *)
| CarteiraDestinoNaoEncontrada     (* "Carteira de destino nao encontrada" *)
| ChavePrivadaInvalida             (* "Chave privada invalida!" *)
| MoedaInvalida (codigo : string)  (* "Moeda {codigo} invalida" *)
| MoedaOrigemOuDestinoInvalida     (* "Moeda de origem ou destino invalida" *)
| SaldoInsuficienteSaque           (* "Saldo insuficiente para saque + taxa" *)
| SaldoInsuficienteConversao (codigo : string) (* "Saldo insuficiente em {moeda_origem}." *)
| SaldoInsuficienteTransferencia   (* "Saldo insuficiente para transferencia + taxa" *)
| TransferenciaPropriaCarteira     (* "Nao e possivel transferir para a propria carteira." *)
| CarteiraDestinoBloqueada         (* "Carteira de destino esta bloqueada/inativa" *)
| ErroCotacao.                     (* "Erro ao obter cotacao." *)

(** The error kinds of the specification. *)
Inductive ErrorKind : Type :=
| NotFound | Unauthorized | InvalidCurrency | InvalidOperation
| DestinationBlocked | QuoteUnavailable | InsufficientFunds.

Definition kind (e : ValueError) : ErrorKind :=
  match e with
  | CarteiraNaoEncontrada | CarteiraOrigemNaoEncontrada
  | CarteiraDestinoNaoEncontrada => NotFound
  | ChavePrivadaInvalida => Unauthorized
  | MoedaInvalida _ | MoedaOrigemOuDestinoInvalida => InvalidCurrency
  | SaldoInsuficienteSaque | SaldoInsuficienteConversao _
  | SaldoInsuficienteTransferencia => InsufficientFunds
  | TransferenciaPropriaCarteira => InvalidOperation
  | CarteiraDestinoBloqueada => DestinationBlocked
  | ErroCotacao => QuoteUnavailable
  end.

(** ** State-and-exception monad *)

Inductive Resultado (A : Type) : Type :=
| Ok (a : A)
| Raise (e : ValueError).
Arguments Ok {A} a.
Arguments Raise {A} e.

Definition M (A : Type) : Type := BD -> Resultado A * BD.

Definition ret {A : Type} (a : A) : M A := fun bd => (Ok a, bd).

Definition raise {A : Type} (e : ValueError) : M A := fun bd => (Raise e, bd).

Definition bind {A B : Type} (m : M A) (k : A -> M B) : M B :=
  fun bd =>
    match m bd with
    | (Ok a, bd') => k a bd'
    | (Raise e, bd') => (Raise e, bd')
    end.

Declare Scope carteira_scope.
Delimit Scope carteira_scope with carteira.
Notation "x <- m ;; k" := (bind m (fun x => k))
  (at level 100, m at next level, right associativity) : carteira_scope.
Local Open Scope carteira_scope.

(** [float] comparison [a < b]. *)
Definition Qltb (a b : Q) : bool := negb (Qle_bool b a).


(** Python truthiness of an [Optional[int]]: [if not id_moeda] holds for
    [None] and for [0]. *)
Definition truthy (o : option Z) : option Z :=
  match o with
  | Some 0 => None
  | Some i => Some i
  | None => None
  end.

(** [str.upper] restricted to strings of ASCII characters: the instance of
    [str_upper] in the concrete environments below. *)
Definition upper_ascii (c : ascii) : ascii :=
  let n := nat_of_ascii c in
  if (andb (Nat.leb 97 n) (Nat.leb n 122)) then ascii_of_nat (n - 32) else c.

Fixpoint upper (s : string) : string :=
  match s with
  | EmptyString => EmptyString
  | String c r => String (upper_ascii c) (upper r)
  end.

(** ** Python floats

    The value of [a * b] or [a + b] on floats is the exact product or sum
    rounded to binary64.  IEEE 754 rounding is symmetric around 0 and keeps
    0, so the rounding of any value is given by the rounding [arr] of
    positive magnitudes. *)

Definition arredondar_simetrico (arr : Q -> Q) (x : Q) : Q :=
  match (x ?= 0)%Q with
  | Eq => 0%Q
  | Gt => Qabs (arr x)
  | Lt => (- Qabs (arr (- x)))%Q
  end.

(** [a * b] and [a + b] on floats. *)
Definition float_mul (arr : Q -> Q) (a b : Q) : Q :=
  arredondar_simetrico arr (a * b).

Definition float_add (arr : Q -> Q) (a b : Q) : Q :=
  arredondar_simetrico arr (a + b).

(** [n / d * 2 ^ (- e)] as a fraction of integers. *)
Definition escalar (n d e : Z) : Z * Z :=
  if (0 <=? e)%Z then (n, d * 2 ^ e) else (n * 2 ^ (- e), d).

(** Rounding of a positive rational to the nearest number [m * 2 ^ e] with
    [2 ^ 52 <= m <= 2 ^ 53], ties to the even [m]: binary64 rounding in the
    normal range. *)
Definition arredondar_binary64 (x : Q) : Q :=
  let n := Qnum x in
  let d := Zpos (Qden x) in
  let e1 := Z.log2 n - Z.log2 d - 52 in
  let e := if (fst (escalar n d e1) / snd (escalar n d e1) <? 2 ^ 52)%Z
           then e1 - 1 else e1 in
  let (n2, d2) := escalar n d e in
  let m := n2 / d2 in
  let r := n2 mod d2 in
  let m' := if (d2 <? 2 * r)%Z then m + 1
            else if (2 * r =? d2)%Z then (if Z.even m then m else m + 1)
            else m in
  if (0 <=? e)%Z then inject_Z (m' * 2 ^ e)
  else Qmake m' (Z.to_pos (2 ^ (- e))).

(** The float that a decimal literal denotes: [f64 (7 # 100)] is [0.07]. *)
Definition f64 (x : Q) : Q := arredondar_simetrico arredondar_binary64 x.

(** The rational value of a primitive float of Rocq, to compare
    [arredondar_binary64] with the binary64 arithmetic of the machine. *)
Definition Q_de_float (f : PrimFloat.float) : option Q :=
  match FloatOps.Prim2SF f with
  | SpecFloat.S754_zero _ => Some 0%Q
  | SpecFloat.S754_finite s m e =>
      let v := if (0 <=? e)%Z then inject_Z (Zpos m * 2 ^ e)
               else Qmake (Zpos m) (Z.to_pos (2 ^ (- e))) in
      Some (if s then (- v)%Q else v)
  | _ => None
  end.

Definition mesmo_valor (a : option Q) (b : Q) : bool :=
  match a with
  | Some q => Qeq_bool q b
  | None => false
  end.

(** ** CarteiraRepository *)

Module CarteiraRepository.

(** [result.lastrowid] of an insertion into a table whose identifiers are
    assigned in sequence. *)
Definition lastrowid {A : Type} (tabela : list A) : Z :=
  Z.of_nat (length tabela) + 1.

Definition buscar_por_endereco (endereco : string) : M (option CarteiraRow) :=
  fun bd =>
    (Ok (List.find (fun r => String.eqb (endereco_carteira r) endereco)
                   (carteira bd)), bd).

Definition listar : M (list CarteiraRow) :=
  fun bd => (Ok (carteira bd), bd).

Definition atualizar_status (endereco : string) (novo : Status)
  : M (option CarteiraRow) :=
  fun bd =>
    let linhas :=
      List.map (fun r =>
                  if String.eqb (endereco_carteira r) endereco
                  then mkCarteiraRow (endereco_carteira r) (data_criacao r)
                                     novo (hash_chave_privada r)
                  else r) (carteira bd) in
    let bd' := mkBD linhas (moeda bd) (saldo_carteira bd) (deposito_saque bd)
                    (conversao bd) (transferencia bd) in
    (Ok (List.find (fun r => String.eqb (endereco_carteira r) endereco) linhas),
     bd').

Definition buscar_id_moeda (codigo : string) : M (option Z) :=
  fun bd =>
    (Ok (option_map snd
           (List.find (fun m => String.eqb (fst m) codigo) (moeda bd))), bd).

Definition buscar_saldo_especifico (endereco : string) (id_moeda : Z) : M Q :=
  fun bd =>
    (Ok (match saldo_carteira bd !! (endereco, id_moeda) with
         | Some s => s
         | None => 0%Q
         end), bd).

(** [INSERT INTO saldo_carteira ... ON DUPLICATE KEY UPDATE saldo = saldo + v] *)
Definition upsert_saldo (endereco : string) (id_moeda : Z) (v : Q)
  (saldos : gmap (string * Z) Q) : gmap (string * Z) Q :=
  partial_alter (fun o => match o with
                          | Some s => Some (s + v)%Q
                          | None => Some v
                          end) (endereco, id_moeda) saldos.

(** [UPDATE saldo_carteira SET saldo = saldo - total WHERE ...]: touches
    the row only when it exists.  In the three methods that debit, the
    total is the float sum [valor + taxa] computed before the statement;
    [arr] is the rounding of that sum. *)
Definition debitar_saldo (endereco : string) (id_moeda : Z) (total : Q)
  (saldos : gmap (string * Z) Q) : gmap (string * Z) Q :=
  alter (fun s => (s - total)%Q) (endereco, id_moeda) saldos.

Definition realizar_deposito (endereco : string) (id_moeda : Z) (valor : Q)
  : M Z :=
  fun bd =>
    let id_movimento := lastrowid (deposito_saque bd) in
    let linha := mkMovimentoRow id_movimento endereco id_moeda DEPOSITO valor 0 in
    (Ok id_movimento,
     mkBD (carteira bd) (moeda bd)
          (upsert_saldo endereco id_moeda valor (saldo_carteira bd))
          (deposito_saque bd ++ [linha])
          (conversao bd) (transferencia bd)).

Definition realizar_saque (arr : Q -> Q) (endereco : string) (id_moeda : Z)
  (valor taxa : Q) : M Z :=
  fun bd =>
    let total_debito := float_add arr valor taxa in
    let id_movimento := lastrowid (deposito_saque bd) in
    let linha := mkMovimentoRow id_movimento endereco id_moeda SAQUE valor taxa in
    (Ok id_movimento,
     mkBD (carteira bd) (moeda bd)
          (debitar_saldo endereco id_moeda total_debito (saldo_carteira bd))
          (deposito_saque bd ++ [linha])
          (conversao bd) (transferencia bd)).

Definition realizar_conversao (arr : Q -> Q) (endereco : string)
  (id_origem id_destino : Z)
  (valor_origem valor_destino taxa_valor taxa_percentual cotacao : Q) : M Z :=
  fun bd =>
    let total_debito := float_add arr valor_origem taxa_valor in
    let id_conversao := lastrowid (conversao bd) in
    let linha := mkConversaoRow id_conversao endereco id_origem id_destino
                   valor_origem valor_destino taxa_percentual taxa_valor
                   cotacao in
    (Ok id_conversao,
     mkBD (carteira bd) (moeda bd)
          (upsert_saldo endereco id_destino valor_destino
             (debitar_saldo endereco id_origem total_debito (saldo_carteira bd)))
          (deposito_saque bd)
          (conversao bd ++ [linha]) (transferencia bd)).

Definition realizar_transferencia (arr : Q -> Q)
  (end_origem end_destino : string) (id_moeda : Z) (valor taxa : Q) : M Z :=
  fun bd =>
    let total_debito_origem := float_add arr valor taxa in
    let id_transf := lastrowid (transferencia bd) in
    let linha := mkTransferenciaRow id_transf end_origem end_destino id_moeda
                   valor taxa in
    (Ok id_transf,
     mkBD (carteira bd) (moeda bd)
          (upsert_saldo end_destino id_moeda valor
             (debitar_saldo end_origem id_moeda total_debito_origem
                (saldo_carteira bd)))
          (deposito_saque bd) (conversao bd)
          (transferencia bd ++ [linha])).

Definition menor_id (a b : string * Z) : Prop := snd a <= snd b.

#[global] Instance menor_id_dec : RelDecision menor_id :=
  fun a b => decide (snd a <= snd b).

(** [ORDER BY m.id_moeda]. *)
Definition ordenar_por_id (ms : list (string * Z)) : list (string * Z) :=
  merge_sort menor_id ms.

(** [listar_saldos]: the LEFT JOIN keeps every row of [moeda]; the key of
    [saldo_carteira] gives each at most one balance row, and [IFNULL] puts 0
    where there is none. *)
Definition listar_saldos (endereco : string) : M (list (string * Q)) :=
  fun bd =>
    (Ok (List.map (fun m => (fst m,
                             match saldo_carteira bd !! (endereco, snd m) with
                             | Some s => s
                             | None => 0%Q
                             end))
           (ordenar_por_id (moeda bd))), bd).

(** [criar]: [chave_privada] and [endereco] are the two values drawn with
    [secrets.token_hex], [sha256] is [hashlib.sha256(...).hexdigest()].  The
    INSERT names the address and the hash only: [data_criacao] and [status]
    take the defaults of their columns, which the schema fixes and the
    sources do not show; they are the parameters [padrao_data] and
    [padrao_status].  The result is the row that the SELECT by address reads
    back, with the key in clear. *)
Definition criar (sha256 : string -> string) (chave_privada endereco : string)
  (padrao_data : Z) (padrao_status : Status)
  : M (option CarteiraRow * string) :=
  fun bd =>
    let hash_privada := sha256 chave_privada in
    let linhas := (carteira bd
                   ++ [mkCarteiraRow endereco padrao_data padrao_status
                         hash_privada])%list in
    (Ok (List.find (fun r => String.eqb (endereco_carteira r) endereco) linhas,
         chave_privada),
     mkBD linhas (moeda bd) (saldo_carteira bd) (deposito_saque bd)
          (conversao bd) (transferencia bd)).

End CarteiraRepository.

(** ** Environment of the service

    [sha256_hexdigest k] is [hashlib.sha256(k.encode()).hexdigest()]; the
    three rates are the values of [float(os.getenv(..., default))];
    [coinbase_spot par] is the spot price of the pair, [None] when the request
    fails, answers another status than 200 or has a malformed body;
    [arredondar] is the rounding of float arithmetic on positive magnitudes
    ([arredondar_binary64] for Python); [str_upper] is [str.upper]. *)
Record Ambiente : Type := mkAmbiente {
  sha256_hexdigest : string -> string;
  TAXA_SAQUE_PERCENTUAL : Q;
  TAXA_CONVERSAO_PERCENTUAL : Q;
  TAXA_TRANSFERENCIA_PERCENTUAL : Q;
  coinbase_spot : string -> option Q;
  arredondar : Q -> Q;
  str_upper : string -> string
}.

(** ** CarteiraService *)

Module CarteiraService.
Import CarteiraRepository.

Section Servico.
Variable amb : Ambiente.

Definition bloquear (endereco : string) : M CarteiraRow :=
  row <- atualizar_status endereco BLOQUEADA ;;
  match row with
  | None => raise CarteiraNaoEncontrada
  | Some r => ret r
  end.

Definition depositar (endereco : string) (dados : OperacaoDeposito)
  : M ReciboMovimentacao :=
  id_moeda <- buscar_id_moeda (dep_codigo_moeda dados) ;;
  match truthy id_moeda with
  | None => raise (MoedaInvalida (dep_codigo_moeda dados))
  | Some id_moeda =>
      id_mov <- realizar_deposito endereco id_moeda (dep_valor dados) ;;
      novo_saldo <- buscar_saldo_especifico endereco id_moeda ;;
      ret (mkReciboMovimentacao id_mov DEPOSITO (dep_valor dados) 0 novo_saldo)
  end.

Definition sacar (endereco : string) (dados : OperacaoSaque)
  : M ReciboMovimentacao :=
  carteira_row <- buscar_por_endereco endereco ;;
  match carteira_row with
  | None => raise CarteiraNaoEncontrada
  | Some carteira_row =>
      let hash_enviado := sha256_hexdigest amb (saq_chave_privada dados) in
      if negb (String.eqb (hash_chave_privada carteira_row) hash_enviado)
      then raise ChavePrivadaInvalida
      else
        id_moeda <- buscar_id_moeda (saq_codigo_moeda dados) ;;
        match truthy id_moeda with
        | None => raise (MoedaInvalida (saq_codigo_moeda dados))
        | Some id_moeda =>
            let taxa_percentual := TAXA_SAQUE_PERCENTUAL amb in
            let taxa_valor :=
              float_mul (arredondar amb) (saq_valor dados) taxa_percentual in
            let total_necessario :=
              float_add (arredondar amb) (saq_valor dados) taxa_valor in
            saldo_atual <- buscar_saldo_especifico endereco id_moeda ;;
            if Qltb saldo_atual total_necessario
            then raise SaldoInsuficienteSaque
            else
              id_mov <- realizar_saque (arredondar amb) endereco id_moeda
                          (saq_valor dados) taxa_valor ;;
              novo_saldo <- buscar_saldo_especifico endereco id_moeda ;;
              ret (mkReciboMovimentacao id_mov SAQUE (saq_valor dados)
                     taxa_valor novo_saldo)
        end
  end.

Definition converter (endereco : string) (dados : OperacaoConversao)
  : M ReciboConversao :=
  carteira_row <- buscar_por_endereco endereco ;;
  match carteira_row with
  | None => raise CarteiraNaoEncontrada
  | Some carteira_row =>
      let hash_enviado := sha256_hexdigest amb (cv_chave_privada dados) in
      if negb (String.eqb (hash_chave_privada carteira_row) hash_enviado)
      then raise ChavePrivadaInvalida
      else
        id_origem <- buscar_id_moeda (cv_moeda_origem dados) ;;
        id_destino <- buscar_id_moeda (cv_moeda_destino dados) ;;
        match truthy id_origem, truthy id_destino with
        | Some id_origem, Some id_destino =>
            let par := str_upper amb (cv_moeda_origem dados) ++ "-"
                       ++ str_upper amb (cv_moeda_destino dados) in
            match coinbase_spot amb par with
            | None => raise ErroCotacao
            | Some cotacao =>
                let taxa_percentual := TAXA_CONVERSAO_PERCENTUAL amb in
                let taxa_valor :=
                  float_mul (arredondar amb) (cv_valor dados) taxa_percentual in
                let total_debito :=
                  float_add (arredondar amb) (cv_valor dados) taxa_valor in
                let valor_destino :=
                  float_mul (arredondar amb) (cv_valor dados) cotacao in
                saldo_origem <- buscar_saldo_especifico endereco id_origem ;;
                if Qltb saldo_origem total_debito
                then raise (SaldoInsuficienteConversao (cv_moeda_origem dados))
                else
                  id_conv <- realizar_conversao (arredondar amb) endereco
                               id_origem id_destino
                               (cv_valor dados) valor_destino taxa_valor
                               taxa_percentual cotacao ;;
                  ret (mkReciboConversao id_conv (cv_moeda_origem dados)
                         (cv_moeda_destino dados) (cv_valor dados)
                         valor_destino taxa_valor cotacao)
            end
        | _, _ => raise MoedaOrigemOuDestinoInvalida
        end
  end.

Definition transferir (endereco_origem : string)
  (dados : OperacaoTransferencia) : M ReciboTransferencia :=
  origem_row <- buscar_por_endereco endereco_origem ;;
  match origem_row with
  | None => raise CarteiraOrigemNaoEncontrada
  | Some origem_row =>
      let hash_enviado := sha256_hexdigest amb (tr_chave_privada dados) in
      if negb (String.eqb (hash_chave_privada origem_row) hash_enviado)
      then raise ChavePrivadaInvalida
      else if String.eqb endereco_origem (tr_endereco_destino dados)
      then raise TransferenciaPropriaCarteira
      else
        destino_row <- buscar_por_endereco (tr_endereco_destino dados) ;;
        match destino_row with
        | None => raise CarteiraDestinoNaoEncontrada
        | Some destino_row =>
            if negb (Status_eqb (status destino_row) ATIVA)
            then raise CarteiraDestinoBloqueada
            else
              id_moeda <- buscar_id_moeda (tr_codigo_moeda dados) ;;
              match truthy id_moeda with
              | None => raise (MoedaInvalida (tr_codigo_moeda dados))
              | Some id_moeda =>
                  let taxa_percentual := TAXA_TRANSFERENCIA_PERCENTUAL amb in
                  let taxa_valor :=
                    float_mul (arredondar amb) (tr_valor dados)
                      taxa_percentual in
                  let total_debito :=
                    float_add (arredondar amb) (tr_valor dados) taxa_valor in
                  saldo_origem <- buscar_saldo_especifico endereco_origem
                                    id_moeda ;;
                  if Qltb saldo_origem total_debito
                  then raise SaldoInsuficienteTransferencia
                  else
                    id_transf <- realizar_transferencia (arredondar amb)
                                   endereco_origem
                                   (tr_endereco_destino dados) id_moeda
                                   (tr_valor dados) taxa_valor ;;
                    ret (mkReciboTransferencia id_transf endereco_origem
                           (tr_endereco_destino dados)
                           (tr_codigo_moeda dados) (tr_valor dados)
                           taxa_valor)
              end
        end
  end.

End Servico.

End CarteiraService.

(** ** Observations on the stored state *)

(** The balance that [buscar_saldo_especifico] reads: 0 when there is no row. *)
Definition saldo (bd : BD) (endereco : string) (id_moeda : Z) : Q :=
  match saldo_carteira bd !! (endereco, id_moeda) with
  | Some s => s
  | None => 0%Q
  end.

(** The row that [buscar_por_endereco] returns. *)
Definition carteira_de (bd : BD) (endereco : string) : option CarteiraRow :=
  List.find (fun r => String.eqb (endereco_carteira r) endereco) (carteira bd).

(** The identifier a currency code resolves to, when the service accepts it. *)
Definition id_da_moeda (bd : BD) (codigo : string) : option Z :=
  truthy (option_map snd (List.find (fun m => String.eqb (fst m) codigo) (moeda bd))).

(** The wallet exists and the key sent hashes to the stored hash. *)
Definition autorizada (amb : Ambiente) (bd : BD) (endereco chave : string)
  : Prop :=
  exists row, carteira_de bd endereco = Some row /\
              hash_chave_privada row = sha256_hexdigest amb chave.

Definition saldos_nao_negativos (bd : BD) : Prop :=
  forall k s, saldo_carteira bd !! k = Some s -> (0 <= s)%Q.

Definition sucesso {A : Type} (r : Resultado A) : bool :=
  match r with
  | Ok _ => true
  | Raise _ => false
  end.

(** ** Withdrawals one after another, and interleaved *)

(** [K] calls of [sacar], each one finished before the next starts. *)
Fixpoint sacar_em_serie (amb : Ambiente) (endereco : string)
  (dados : OperacaoSaque) (K : nat) (bd : BD)
  : list (Resultado ReciboMovimentacao) * BD :=
  match K with
  | O => ([], bd)
  | S k =>
      let (r, bd1) := CarteiraService.sacar amb endereco dados bd in
      let (rs, bd2) := sacar_em_serie amb endereco dados k bd1 in
      (r :: rs, bd2)
  end.

Module Concorrencia.
Import CarteiraRepository.

Section Tarefas.
Variable amb : Ambiente.

(** [sacar] up to and including the balance test: repository reads only. *)
Definition sacar_verificar (endereco : string) (dados : OperacaoSaque)
  : M (Z * Q) :=
  carteira_row <- buscar_por_endereco endereco ;;
  match carteira_row with
  | None => raise CarteiraNaoEncontrada
  | Some carteira_row =>
      let hash_enviado := sha256_hexdigest amb (saq_chave_privada dados) in
      if negb (String.eqb (hash_chave_privada carteira_row) hash_enviado)
      then raise ChavePrivadaInvalida
      else
        id_moeda <- buscar_id_moeda (saq_codigo_moeda dados) ;;
        match truthy id_moeda with
        | None => raise (MoedaInvalida (saq_codigo_moeda dados))
        | Some id_moeda =>
            let taxa_percentual := TAXA_SAQUE_PERCENTUAL amb in
            let taxa_valor :=
              float_mul (arredondar amb) (saq_valor dados) taxa_percentual in
            let total_necessario :=
              float_add (arredondar amb) (saq_valor dados) taxa_valor in
            saldo_atual <- buscar_saldo_especifico endereco id_moeda ;;
            if Qltb saldo_atual total_necessario
            then raise SaldoInsuficienteSaque
            else ret (id_moeda, taxa_valor)
        end
  end.

(** The rest of [sacar]: the transaction of [realizar_saque] and the
    receipt. *)
Definition sacar_efetivar (endereco : string) (dados : OperacaoSaque)
  (p : Z * Q) : M ReciboMovimentacao :=
  let (id_moeda, taxa_valor) := p in
  id_mov <- realizar_saque (arredondar amb) endereco id_moeda
              (saq_valor dados) taxa_valor ;;
  novo_saldo <- buscar_saldo_especifico endereco id_moeda ;;
  ret (mkReciboMovimentacao id_mov SAQUE (saq_valor dados) taxa_valor
         novo_saldo).

(** A request handler running [sacar]. *)
Inductive Tarefa : Type :=
| Pendente (endereco : string) (dados : OperacaoSaque)
| Verificada (endereco : string) (dados : OperacaoSaque) (p : Z * Q)
| Terminada (r : Resultado ReciboMovimentacao).

Definition passo_tarefa (t : Tarefa) (bd : BD) : Tarefa * BD :=
  match t with
  | Pendente endereco dados =>
      match sacar_verificar endereco dados bd with
      | (Ok p, bd') => (Verificada endereco dados p, bd')
      | (Raise e, bd') => (Terminada (Raise e), bd')
      end
  | Verificada endereco dados p =>
      let (r, bd') := sacar_efetivar endereco dados p bd in
      (Terminada r, bd')
  | Terminada r => (Terminada r, bd)
  end.

(** Handler [i] takes its next step on the shared database. *)
Definition passo (c : list Tarefa * BD) (i : nat) : list Tarefa * BD :=
  match fst c !! i with
  | Some t =>
      let (t', bd') := passo_tarefa t (snd c) in
      (<[i := t']> (fst c), bd')
  | None => c
  end.

Definition executar (escalonamento : list nat) (c : list Tarefa * BD)
  : list Tarefa * BD :=
  fold_left passo escalonamento c.

Definition terminou_com_sucesso (t : Tarefa) : bool :=
  match t with
  | Terminada (Ok _) => true
  | _ => false
  end.

Definition terminou_sem_saldo (t : Tarefa) : bool :=
  match t with
  | Terminada (Raise SaldoInsuficienteSaque) => true
  | _ => false
  end.

End Tarefas.

End Concorrencia.

(** ** A concrete environment and database *)

Definition sha_exemplo (s : string) : string := "sha256:" ++ s.

Definition spot_exemplo (par : string) : option Q :=
  if String.eqb par "USD-EUR" then Some (9 # 10)
  else if String.eqb par "USD-USD" then Some (1 # 1)
  else None.

(** The default fee rates 0.01, 0.02 and 0.01, in an environment whose
    arithmetic is exact: decimal amounts are computed without rounding. *)
Definition amb_padrao (h : string -> string) (spot : string -> option Q)
  : Ambiente :=
  mkAmbiente h (1 # 100) (2 # 100) (1 # 100) spot (fun x => x) upper.

Definition amb_exemplo : Ambiente := amb_padrao sha_exemplo spot_exemplo.

(** The environment of the Python process: binary64 arithmetic, the default
    rates as the floats [0.01], [0.02] and [0.01], quotes as floats. *)
Definition spot_binary64 (par : string) : option Q :=
  if String.eqb par "USD-EUR" then Some (f64 (9 # 10))
  else if String.eqb par "USD-USD" then Some 1%Q
  else None.

Definition amb_binary64 : Ambiente :=
  mkAmbiente sha_exemplo (f64 (1 # 100)) (f64 (2 # 100)) (f64 (1 # 100))
    spot_binary64 arredondar_binary64 upper.

Definition W : CarteiraRow := mkCarteiraRow "aa01" 0 ATIVA (sha_exemplo "k1").
Definition X : CarteiraRow := mkCarteiraRow "bb02" 1 BLOQUEADA (sha_exemplo "k2").
Definition Y : CarteiraRow := mkCarteiraRow "cc03" 2 ATIVA (sha_exemplo "k3").

Definition bd_vazio : BD :=
  mkBD [W; X; Y] [("USD", 1); ("EUR", 2)] ∅ [] [] [].

Definition bd_exemplo : BD :=
  mkBD [W; X; Y] [("USD", 1); ("EUR", 2)]
       (<[("aa01", 1) := 100%Q]> (<[("bb02", 1) := 100%Q]> ∅)) [] [] [].

(** The wallets and currencies of the examples, with one balance row: [s]
    for the first wallet in USD. *)
Definition bd_com_saldo (s : Q) : BD :=
  mkBD [W; X; Y] [("USD", 1); ("EUR", 2)] (<[("aa01", 1) := s]> ∅) [] [] [].

Definition bd_20 : BD :=
  mkBD [W; X; Y] [("USD", 1); ("EUR", 2)] (<[("aa01", 1) := 20%Q]> ∅) [] [] [].

(** The four mutating operations, as the router dispatches them. *)
Inductive Operacao : Type :=
| Depositar (endereco : string) (dados : OperacaoDeposito)
| Sacar (endereco : string) (dados : OperacaoSaque)
| Converter (endereco : string) (dados : OperacaoConversao)
| Transferir (endereco_origem : string) (dados : OperacaoTransferencia).

Definition erro {A : Type} (r : Resultado A) : option ValueError :=
  match r with
  | Ok _ => None
  | Raise e => Some e
  end.

(** The error raised, if any, and the database left behind. *)
Definition aplicar (amb : Ambiente) (op : Operacao) (bd : BD)
  : option ValueError * BD :=
  match op with
  | Depositar e d =>
      let (r, bd') := CarteiraService.depositar e d bd in (erro r, bd')
  | Sacar e d =>
      let (r, bd') := CarteiraService.sacar amb e d bd in (erro r, bd')
  | Converter e d =>
      let (r, bd') := CarteiraService.converter amb e d bd in (erro r, bd')
  | Transferir e d =>
      let (r, bd') := CarteiraService.transferir amb e d bd in (erro r, bd')
  end.

(** The pair string the quote is asked for. *)
Definition par_de (amb : Ambiente) (dados : OperacaoConversao) : string :=
  str_upper amb (cv_moeda_origem dados) ++ "-"
  ++ str_upper amb (cv_moeda_destino dados).

(** The amounts that the service computes for a request, named as in the
    source. *)
Definition saque_taxa_valor (amb : Ambiente) (d : OperacaoSaque) : Q :=
  float_mul (arredondar amb) (saq_valor d) (TAXA_SAQUE_PERCENTUAL amb).

Definition saque_total_necessario (amb : Ambiente) (d : OperacaoSaque) : Q :=
  float_add (arredondar amb) (saq_valor d) (saque_taxa_valor amb d).

Definition conversao_taxa_valor (amb : Ambiente) (d : OperacaoConversao) : Q :=
  float_mul (arredondar amb) (cv_valor d) (TAXA_CONVERSAO_PERCENTUAL amb).

Definition conversao_total_debito (amb : Ambiente) (d : OperacaoConversao)
  : Q :=
  float_add (arredondar amb) (cv_valor d) (conversao_taxa_valor amb d).

Definition conversao_valor_destino (amb : Ambiente) (d : OperacaoConversao)
  (cotacao : Q) : Q :=
  float_mul (arredondar amb) (cv_valor d) cotacao.

Definition transferencia_taxa_valor (amb : Ambiente)
  (d : OperacaoTransferencia) : Q :=
  float_mul (arredondar amb) (tr_valor d) (TAXA_TRANSFERENCIA_PERCENTUAL amb).

Definition transferencia_total_debito (amb : Ambiente)
  (d : OperacaoTransferencia) : Q :=
  float_add (arredondar amb) (tr_valor d) (transferencia_taxa_valor amb d).

(** Amounts under which an operation cannot credit a negative value: the
    credited amount is [dep_valor], the float [cv_valor * cotacao] or
    [tr_valor]; a withdrawal credits nothing. *)
Definition credito_nao_negativo (amb : Ambiente) (op : Operacao) : Prop :=
  match op with
  | Depositar _ d => (0 <= dep_valor d)%Q
  | Sacar _ _ => True
  | Converter _ d =>
      forall cot, coinbase_spot amb (par_de amb d) = Some cot ->
                  (0 <= conversao_valor_destino amb d cot)%Q
  | Transferir _ d => (0 <= tr_valor d)%Q
  end.



(** ** The read side: models, service methods and routes *)

Record Carteira : Type := mkCarteira {
  c_endereco_carteira : string;
  c_data_criacao : Z;
  c_status : Status
}.

Record CarteiraCriada : Type := mkCarteiraCriada {
  cc_endereco_carteira : string;
  cc_data_criacao : Z;
  cc_status : Status;
  cc_chave_privada : string
}.

Record Saldo : Type := mkSaldo {
  s_moeda : string;
  s_saldo : Q
}.

Definition como_carteira (r : CarteiraRow) : Carteira :=
  mkCarteira (endereco_carteira r) (data_criacao r) (status r).

(** The methods of [CarteiraService] that create and read; they are kept in
    a module of their own because two of them bear the names of the
    repository methods they call. *)
Module CarteiraServiceConsultas.

Definition criar_carteira (amb : Ambiente) (chave_privada endereco : string)
  (padrao_data : Z) (padrao_status : Status) : M (option CarteiraCriada) :=
  row <- CarteiraRepository.criar (sha256_hexdigest amb) chave_privada endereco
           padrao_data padrao_status ;;
  ret (option_map (fun r => mkCarteiraCriada (endereco_carteira r)
                              (data_criacao r) (status r) (snd row))
         (fst row)).

Definition buscar_por_endereco (endereco : string) : M Carteira :=
  row <- CarteiraRepository.buscar_por_endereco endereco ;;
  match row with
  | None => raise CarteiraNaoEncontrada
  | Some row => ret (como_carteira row)
  end.

Definition listar : M (list Carteira) :=
  rows <- CarteiraRepository.listar ;;
  ret (List.map como_carteira rows).

Definition buscar_saldos (endereco : string) : M (list Saldo) :=
  row <- CarteiraRepository.buscar_por_endereco endereco ;;
  match row with
  | None => raise CarteiraNaoEncontrada
  | Some _ =>
      rows <- CarteiraRepository.listar_saldos endereco ;;
      ret (List.map (fun r => mkSaldo (fst r) (snd r)) rows)
  end.

End CarteiraServiceConsultas.

(** carteira_router.py: each route runs its service method and turns a
    [ValueError] into an [HTTPException] with the status code of the route. *)
Module CarteiraRouter.

Inductive Resposta (A : Type) : Type :=
| Corpo (a : A)
| HTTPException (status_code : Z) (detail : ValueError).
Arguments Corpo {A} a.
Arguments HTTPException {A} status_code detail.

Definition status_code_de {A : Type} (r : Resposta A) : Z :=
  match r with
  | Corpo _ => 200
  | HTTPException c _ => c
  end.

Definition tentar {A : Type} (m : M A) (codigo : Z) (bd : BD)
  : Resposta A * BD :=
  match m bd with
  | (Ok a, bd') => (Corpo a, bd')
  | (Raise e, bd') => (HTTPException codigo e, bd')
  end.

Definition buscar_carteira (endereco_carteira : string) :=
  tentar (CarteiraServiceConsultas.buscar_por_endereco endereco_carteira) 404.

Definition bloquear_carteira (endereco_carteira : string) :=
  tentar (r <- CarteiraService.bloquear endereco_carteira ;;
          ret (como_carteira r)) 404.

Definition listar_saldos_carteira (endereco_carteira : string) :=
  tentar (CarteiraServiceConsultas.buscar_saldos endereco_carteira) 404.

Definition realizar_deposito (endereco_carteira : string)
  (operacao : OperacaoDeposito) :=
  tentar (CarteiraService.depositar endereco_carteira operacao) 400.

Definition realizar_saque (amb : Ambiente) (endereco_carteira : string)
  (operacao : OperacaoSaque) :=
  tentar (CarteiraService.sacar amb endereco_carteira operacao) 400.

Definition realizar_conversao (amb : Ambiente) (endereco_carteira : string)
  (operacao : OperacaoConversao) :=
  tentar (CarteiraService.converter amb endereco_carteira operacao) 400.

Definition realizar_transferencia (amb : Ambiente) (endereco_carteira : string)
  (operacao : OperacaoTransferencia) :=
  tentar (CarteiraService.transferir amb endereco_carteira operacao) 400.

End CarteiraRouter.

(** ** Sequences of service calls *)

Inductive Chamada : Type :=
| Criar (chave_privada endereco : string) (padrao_data : Z)
        (padrao_status : Status)
| Bloquear (endereco : string)
| Operar (op : Operacao).

(** The database after one call, whether it returned or raised. *)
Definition apos_chamada (amb : Ambiente) (bd : BD) (c : Chamada) : BD :=
  match c with
  | Criar k e dt st =>
      snd (CarteiraServiceConsultas.criar_carteira amb k e dt st bd)
  | Bloquear e => snd (CarteiraService.bloquear e bd)
  | Operar op => snd (aplicar amb op bd)
  end.

Definition apos_chamadas (amb : Ambiente) (cs : list Chamada) (bd : BD) : BD :=
  fold_left (apos_chamada amb) cs bd.

(** The row of a wallet with its status set. *)
Definition com_status (novo : Status) (r : CarteiraRow) : CarteiraRow :=
  mkCarteiraRow (endereco_carteira r) (data_criacao r) novo
    (hash_chave_privada r).

(** The calls of a sequence whose credited amounts are not negative. *)
Definition chamada_credito_nao_negativo (amb : Ambiente) (c : Chamada)
  : Prop :=
  match c with
  | Operar op => credito_nao_negativo amb op
  | _ => True
  end.

(** What the rows of the three ledgers satisfy when the service wrote them
    under the rates of [amb]. *)
Definition movimento_coerente (amb : Ambiente) (m : MovimentoRow) : Prop :=
  match mov_tipo m with
  | DEPOSITO => mov_taxa_valor m = 0%Q
  | SAQUE =>
      mov_taxa_valor m
      = float_mul (arredondar amb) (mov_valor m) (TAXA_SAQUE_PERCENTUAL amb)
  end.

Definition conversao_coerente (amb : Ambiente) (c : ConversaoRow) : Prop :=
  conv_taxa_percentual c = TAXA_CONVERSAO_PERCENTUAL amb /\
  conv_taxa_valor c
  = float_mul (arredondar amb) (conv_valor_origem c)
      (conv_taxa_percentual c) /\
  conv_valor_destino c
  = float_mul (arredondar amb) (conv_valor_origem c)
      (conv_cotacao_utilizada c).

Definition transferencia_coerente (amb : Ambiente) (t : TransferenciaRow)
  : Prop :=
  transf_endereco_origem t <> transf_endereco_destino t /\
  transf_taxa_valor t
  = float_mul (arredondar amb) (transf_valor t)
      (TAXA_TRANSFERENCIA_PERCENTUAL amb).

Definition registros_coerentes (amb : Ambiente) (bd : BD) : Prop :=
  Forall (movimento_coerente amb) (deposito_saque bd) /\
  Forall (conversao_coerente amb) (conversao bd) /\
  Forall (transferencia_coerente amb) (transferencia bd).

(** The status code a route answers with, and the database it leaves. *)
Definition rota (amb : Ambiente) (op : Operacao) (bd : BD) : Z * BD :=
  match op with
  | Depositar e d =>
      let (r, bd') := CarteiraRouter.realizar_deposito e d bd in
      (CarteiraRouter.status_code_de r, bd')
  | Sacar e d =>
      let (r, bd') := CarteiraRouter.realizar_saque amb e d bd in
      (CarteiraRouter.status_code_de r, bd')
  | Converter e d =>
      let (r, bd') := CarteiraRouter.realizar_conversao amb e d bd in
      (CarteiraRouter.status_code_de r, bd')
  | Transferir e d =>
      let (r, bd') := CarteiraRouter.realizar_transferencia amb e d bd in
      (CarteiraRouter.status_code_de r, bd')
  end.



(** ** Measures used by the properties *)


(** Rows in the three ledgers. *)
Definition registros (bd : BD) : nat :=
  (length (deposito_saque bd) + length (conversao bd)
   + length (transferencia bd))%nat.

(** * Properties *)

Import CarteiraRepository CarteiraService.

(** ** Arithmetic and map helpers *)

Lemma Qltb_true (a b : Q) : Qltb a b = true <-> (a < b)%Q.
Proof.
  unfold Qltb. rewrite negb_true_iff.
  destruct (Qle_bool b a) eqn:E.
  - apply Qle_bool_iff in E. split; [discriminate | intros H; lra].
  - split; [intros _ | reflexivity].
    destruct (Qlt_le_dec a b) as [H|H]; [exact H |].
    apply Qle_bool_iff in H. congruence.
Qed.

Lemma Qltb_false (a b : Q) : Qltb a b = false <-> (b <= a)%Q.
Proof.
  unfold Qltb. rewrite negb_false_iff. apply Qle_bool_iff.
Qed.


Lemma arredondar_simetrico_nao_negativo arr x :
  (0 <= x)%Q -> (0 <= arredondar_simetrico arr x)%Q.
Proof.
  intros Hx. unfold arredondar_simetrico.
  destruct (x ?= 0)%Q eqn:E.
  - lra.
  - apply Qlt_alt in E. lra.
  - apply Qabs_nonneg.
Qed.

(** With the identity as rounding, float arithmetic is exact arithmetic. *)
Lemma arredondar_simetrico_exato x :
  (arredondar_simetrico (fun y => y) x == x)%Q.
Proof.
  unfold arredondar_simetrico.
  destruct (x ?= 0)%Q eqn:E.
  - apply Qeq_alt in E. lra.
  - apply Qlt_alt in E. rewrite Qabs_pos by lra. lra.
  - apply Qgt_alt in E. rewrite Qabs_pos by lra. lra.
Qed.



Lemma lookup_upsert_eq (e : string) (i : Z) (v : Q) (m : gmap (string * Z) Q) :
  upsert_saldo e i v m !! (e, i) =
  Some (match m !! (e, i) with Some s => (s + v)%Q | None => v end).
Proof.
  unfold upsert_saldo. rewrite lookup_partial_alter_eq.
  destruct (m !! (e, i)); reflexivity.
Qed.

Lemma lookup_upsert_ne (e : string) (i : Z) (v : Q) (k : string * Z)
  (m : gmap (string * Z) Q) :
  (e, i) <> k -> upsert_saldo e i v m !! k = m !! k.
Proof. intros H. unfold upsert_saldo. by rewrite lookup_partial_alter_ne. Qed.

Lemma lookup_debitar_eq (e : string) (i : Z) (t : Q) (m : gmap (string * Z) Q) :
  debitar_saldo e i t m !! (e, i) = (fun s => (s - t)%Q) <$> m !! (e, i).
Proof. unfold debitar_saldo. apply lookup_alter_eq. Qed.

Lemma lookup_debitar_ne (e : string) (i : Z) (t : Q) (k : string * Z)
  (m : gmap (string * Z) Q) :
  (e, i) <> k -> debitar_saldo e i t m !! k = m !! k.
Proof. intros H. unfold debitar_saldo. by rewrite lookup_alter_ne. Qed.

(** ** Binary64 rounding

    [arredondar_binary64] against the binary64 arithmetic of the machine, on
    the amounts of the examples: the literals, the products and the sums are
    the same numbers. *)

Module Binary64.
Import PrimFloat.
Set Warnings "-inexact-float".

Example arredondar_binary64_confere :
  let mul := float_mul arredondar_binary64 in
  let add := float_add arredondar_binary64 in
  forallb (fun b : bool => b)
    [ mesmo_valor (Q_de_float 0.01%float) (f64 (1 # 100));
      mesmo_valor (Q_de_float 0.02%float) (f64 (2 # 100));
      mesmo_valor (Q_de_float 0.9%float) (f64 (9 # 10));
      mesmo_valor (Q_de_float 0.07%float) (f64 (7 # 100));
      mesmo_valor (Q_de_float 0.0707%float) (f64 (707 # 10000));
      mesmo_valor (Q_de_float 0.05%float) (f64 (5 # 100));
      mesmo_valor (Q_de_float 0.051%float) (f64 (51 # 1000));
      mesmo_valor (Q_de_float (PrimFloat.mul 0.07 0.01)%float)
        (mul (f64 (7 # 100)) (f64 (1 # 100)));
      mesmo_valor
        (Q_de_float (PrimFloat.add 0.07 (PrimFloat.mul 0.07 0.01))%float)
        (add (f64 (7 # 100)) (mul (f64 (7 # 100)) (f64 (1 # 100))));
      mesmo_valor (Q_de_float 0.07070000000000001%float)
        (add (f64 (7 # 100)) (mul (f64 (7 # 100)) (f64 (1 # 100))));
      mesmo_valor
        (Q_de_float (PrimFloat.add 0.05 (PrimFloat.mul 0.05 0.02))%float)
        (add (f64 (5 # 100)) (mul (f64 (5 # 100)) (f64 (2 # 100))));
      mesmo_valor (Q_de_float 0.051000000000000004%float)
        (add (f64 (5 # 100)) (mul (f64 (5 # 100)) (f64 (2 # 100))));
      mesmo_valor (Q_de_float (PrimFloat.mul 1.1 0.01)%float)
        (mul (f64 (11 # 10)) (f64 (1 # 100)));
      mesmo_valor (Q_de_float 0.011000000000000001%float)
        (mul (f64 (11 # 10)) (f64 (1 # 100)));
      mesmo_valor (Q_de_float (PrimFloat.mul 50 0.02)%float)
        (mul 50%Q (f64 (2 # 100)));
      mesmo_valor (Q_de_float (PrimFloat.mul 50 0.9)%float)
        (mul 50%Q (f64 (9 # 10)));
      mesmo_valor (Q_de_float (PrimFloat.add 10 (PrimFloat.mul 10 0.01))%float)
        (add 10%Q (mul 10%Q (f64 (1 # 100))));
      mesmo_valor
        (Q_de_float (PrimFloat.add (-10) (PrimFloat.mul (-10) 0.01))%float)
        (add (-10)%Q (mul (-10)%Q (f64 (1 # 100))));
      mesmo_valor (Q_de_float (PrimFloat.mul (-50) 0.9)%float)
        (mul (-50)%Q (f64 (9 # 10)));
      mesmo_valor (Q_de_float (PrimFloat.add 0.1 0.2)%float)
        (add (f64 (1 # 10)) (f64 (2 # 10))) ]
  = true.
Proof. vm_compute. reflexivity. Qed.

Set Warnings "+inexact-float".
End Binary64.

(** ** The service methods, check by check *)

Lemma depositar_eq e d bd :
  depositar e d bd =
  match id_da_moeda bd (dep_codigo_moeda d) with
  | None => (Raise (MoedaInvalida (dep_codigo_moeda d)), bd)
  | Some i =>
      let bd' := snd (realizar_deposito e i (dep_valor d) bd) in
      (Ok (mkReciboMovimentacao (lastrowid (deposito_saque bd)) DEPOSITO
             (dep_valor d) 0 (saldo bd' e i)), bd')
  end.
Proof.
  unfold depositar, id_da_moeda, bind, buscar_id_moeda.
  destruct (truthy _); reflexivity.
Qed.

Lemma sacar_eq amb e d bd :
  sacar amb e d bd =
  match carteira_de bd e with
  | None => (Raise CarteiraNaoEncontrada, bd)
  | Some row =>
      if negb (String.eqb (hash_chave_privada row)
                 (sha256_hexdigest amb (saq_chave_privada d)))
      then (Raise ChavePrivadaInvalida, bd)
      else
        match id_da_moeda bd (saq_codigo_moeda d) with
        | None => (Raise (MoedaInvalida (saq_codigo_moeda d)), bd)
        | Some i =>
            let taxa_valor := saque_taxa_valor amb d in
            if Qltb (saldo bd e i) (saque_total_necessario amb d)
            then (Raise SaldoInsuficienteSaque, bd)
            else
              let bd' := snd (realizar_saque (arredondar amb) e i (saq_valor d)
                                taxa_valor bd) in
              (Ok (mkReciboMovimentacao (lastrowid (deposito_saque bd)) SAQUE
                     (saq_valor d) taxa_valor (saldo bd' e i)), bd')
        end
  end.
Proof.
  unfold sacar, carteira_de, id_da_moeda, bind, buscar_por_endereco,
    buscar_id_moeda.
  destruct (List.find _ (carteira bd)) as [row|]; [| reflexivity].
  destruct (negb _); [reflexivity |].
  destruct (truthy _) as [i|]; [| reflexivity].
  unfold buscar_saldo_especifico at 1. fold (saldo bd e i).
  destruct (Qltb _ _); reflexivity.
Qed.

Lemma converter_eq amb e d bd :
  converter amb e d bd =
  match carteira_de bd e with
  | None => (Raise CarteiraNaoEncontrada, bd)
  | Some row =>
      if negb (String.eqb (hash_chave_privada row)
                 (sha256_hexdigest amb (cv_chave_privada d)))
      then (Raise ChavePrivadaInvalida, bd)
      else
        match id_da_moeda bd (cv_moeda_origem d),
              id_da_moeda bd (cv_moeda_destino d) with
        | Some io, Some id =>
            match coinbase_spot amb (par_de amb d) with
            | None => (Raise ErroCotacao, bd)
            | Some cot =>
                let taxa_valor := conversao_taxa_valor amb d in
                let valor_destino := conversao_valor_destino amb d cot in
                if Qltb (saldo bd e io) (conversao_total_debito amb d)
                then (Raise (SaldoInsuficienteConversao (cv_moeda_origem d)), bd)
                else
                  (Ok (mkReciboConversao (lastrowid (conversao bd))
                         (cv_moeda_origem d) (cv_moeda_destino d) (cv_valor d)
                         valor_destino taxa_valor cot),
                   snd (realizar_conversao (arredondar amb) e io id (cv_valor d)
                          valor_destino taxa_valor
                          (TAXA_CONVERSAO_PERCENTUAL amb) cot bd))
            end
        | _, _ => (Raise MoedaOrigemOuDestinoInvalida, bd)
        end
  end.
Proof.
  unfold converter, carteira_de, id_da_moeda, par_de, bind, buscar_por_endereco,
    buscar_id_moeda.
  destruct (List.find _ (carteira bd)) as [row|]; [| reflexivity].
  destruct (negb _); [reflexivity |].
  destruct (truthy _) as [io|]; [| reflexivity].
  destruct (truthy _) as [id|]; [| reflexivity].
  destruct (coinbase_spot _ _) as [cot|]; [| reflexivity].
  unfold buscar_saldo_especifico at 1. fold (saldo bd e io).
  destruct (Qltb _ _); reflexivity.
Qed.

Lemma transferir_eq amb e d bd :
  transferir amb e d bd =
  match carteira_de bd e with
  | None => (Raise CarteiraOrigemNaoEncontrada, bd)
  | Some row =>
      if negb (String.eqb (hash_chave_privada row)
                 (sha256_hexdigest amb (tr_chave_privada d)))
      then (Raise ChavePrivadaInvalida, bd)
      else if String.eqb e (tr_endereco_destino d)
      then (Raise TransferenciaPropriaCarteira, bd)
      else
        match carteira_de bd (tr_endereco_destino d) with
        | None => (Raise CarteiraDestinoNaoEncontrada, bd)
        | Some drow =>
            if negb (Status_eqb (status drow) ATIVA)
            then (Raise CarteiraDestinoBloqueada, bd)
            else
              match id_da_moeda bd (tr_codigo_moeda d) with
              | None => (Raise (MoedaInvalida (tr_codigo_moeda d)), bd)
              | Some i =>
                  let taxa_valor := transferencia_taxa_valor amb d in
                  if Qltb (saldo bd e i) (transferencia_total_debito amb d)
                  then (Raise SaldoInsuficienteTransferencia, bd)
                  else
                    (Ok (mkReciboTransferencia (lastrowid (transferencia bd)) e
                           (tr_endereco_destino d) (tr_codigo_moeda d)
                           (tr_valor d) taxa_valor),
                     snd (realizar_transferencia (arredondar amb) e
                            (tr_endereco_destino d) i (tr_valor d) taxa_valor
                            bd))
              end
        end
  end.
Proof.
  unfold transferir, carteira_de, id_da_moeda, bind, buscar_por_endereco,
    buscar_id_moeda.
  destruct (List.find _ (carteira bd)) as [row|]; [| reflexivity].
  destruct (negb _); [reflexivity |].
  destruct (String.eqb e _); [reflexivity |].
  destruct (List.find _ (carteira bd)) as [drow|]; [| reflexivity].
  destruct (negb _); [reflexivity |].
  destruct (truthy _) as [i|]; [| reflexivity].
  unfold buscar_saldo_especifico at 1. fold (saldo bd e i).
  destruct (Qltb _ _); reflexivity.
Qed.

(** ** Failure leaves the database as it was *)

Lemma depositar_falha e d bd err :
  fst (depositar e d bd) = Raise err -> snd (depositar e d bd) = bd.
Proof.
  rewrite depositar_eq.
  destruct (id_da_moeda _ _); simpl; [discriminate | reflexivity].
Qed.

Lemma sacar_falha amb e d bd err :
  fst (sacar amb e d bd) = Raise err -> snd (sacar amb e d bd) = bd.
Proof.
  rewrite sacar_eq.
  destruct (carteira_de _ _); [| reflexivity].
  destruct (negb _); [reflexivity |].
  destruct (id_da_moeda _ _); [| reflexivity].
  cbv zeta. destruct (Qltb _ _); simpl; [reflexivity | discriminate].
Qed.

Lemma converter_falha amb e d bd err :
  fst (converter amb e d bd) = Raise err -> snd (converter amb e d bd) = bd.
Proof.
  rewrite converter_eq.
  destruct (carteira_de _ _); [| reflexivity].
  destruct (negb _); [reflexivity |].
  destruct (id_da_moeda _ _); [| reflexivity].
  destruct (id_da_moeda _ _); [| reflexivity].
  destruct (coinbase_spot _ _); [| reflexivity].
  cbv zeta. destruct (Qltb _ _); simpl; [reflexivity | discriminate].
Qed.

Lemma transferir_falha amb e d bd err :
  fst (transferir amb e d bd) = Raise err -> snd (transferir amb e d bd) = bd.
Proof.
  rewrite transferir_eq.
  destruct (carteira_de bd e); [| reflexivity].
  destruct (negb _); [reflexivity |].
  destruct (String.eqb _ _); [reflexivity |].
  destruct (carteira_de _ _); [| reflexivity].
  destruct (negb _); [reflexivity |].
  destruct (id_da_moeda _ _); [| reflexivity].
  cbv zeta. destruct (Qltb _ _); simpl; [reflexivity | discriminate].
Qed.

Lemma erro_Some {A : Type} (r : Resultado A) err :
  erro r = Some err -> r = Raise err.
Proof. destruct r; simpl; congruence. Qed.

(** C8. Whenever a deposit, withdrawal, conversion or transfer raises one of
    the service's errors, the whole database (wallets, currencies, balances
    and the three ledgers) is equal to the database before the call. *)
Theorem falha_preserva_bd amb op bd err :
  fst (aplicar amb op bd) = Some err -> snd (aplicar amb op bd) = bd.
Proof.
  destruct op as [e d|e d|e d|e d]; simpl.
  - destruct (depositar e d bd) as [r bd'] eqn:E. simpl. intros H.
    apply erro_Some in H. subst r.
    change bd' with (snd (Raise (A:=ReciboMovimentacao) err, bd')).
    rewrite <- E. eapply depositar_falha. rewrite E. reflexivity.
  - destruct (sacar amb e d bd) as [r bd'] eqn:E. simpl. intros H.
    apply erro_Some in H. subst r.
    change bd' with (snd (Raise (A:=ReciboMovimentacao) err, bd')).
    rewrite <- E. eapply sacar_falha. rewrite E. reflexivity.
  - destruct (converter amb e d bd) as [r bd'] eqn:E. simpl. intros H.
    apply erro_Some in H. subst r.
    change bd' with (snd (Raise (A:=ReciboConversao) err, bd')).
    rewrite <- E. eapply converter_falha. rewrite E. reflexivity.
  - destruct (transferir amb e d bd) as [r bd'] eqn:E. simpl. intros H.
    apply erro_Some in H. subst r.
    change bd' with (snd (Raise (A:=ReciboTransferencia) err, bd')).
    rewrite <- E. eapply transferir_falha. rewrite E. reflexivity.
Qed.

Lemma falha_preserva_bd_witness :
  fst (aplicar amb_exemplo (Sacar "aa01" (mkOperacaoSaque "USD" 500 "k1"))
         bd_exemplo) = Some SaldoInsuficienteSaque /\
  snd (aplicar amb_exemplo (Sacar "aa01" (mkOperacaoSaque "USD" 500 "k1"))
         bd_exemplo) = bd_exemplo.
Proof.
  split; [vm_compute; reflexivity |].
  apply (falha_preserva_bd amb_exemplo
           (Sacar "aa01" (mkOperacaoSaque "USD" 500 "k1")) bd_exemplo
           SaldoInsuficienteSaque).
  vm_compute. reflexivity.
Defined.

(** ** Transfers that are refused *)

(** C5. A transfer whose destination is its own source address always fails
    and leaves the database unchanged: with "origem nao encontrada" when the
    source wallet does not exist, with "chave privada invalida" when the key
    does not hash to the stored hash, and otherwise, whatever the balances,
    with the self-transfer error (kind InvalidOperation). *)
Theorem transferir_para_a_propria_carteira amb e codigo v chave bd :
  transferir amb e (mkOperacaoTransferencia e codigo v chave) bd =
  (Raise (match carteira_de bd e with
          | None => CarteiraOrigemNaoEncontrada
          | Some row =>
              if String.eqb (hash_chave_privada row) (sha256_hexdigest amb chave)
              then TransferenciaPropriaCarteira
              else ChavePrivadaInvalida
          end), bd)
  /\ kind TransferenciaPropriaCarteira = InvalidOperation.
Proof.
  split; [| reflexivity].
  rewrite transferir_eq. simpl.
  destruct (carteira_de bd e) as [row|]; [| reflexivity].
  destruct (String.eqb (hash_chave_privada row) _); simpl; [| reflexivity].
  rewrite String.eqb_refl. reflexivity.
Qed.




(** ** Deposits *)

Lemma saldo_apos_deposito e i v bd :
  (saldo (snd (realizar_deposito e i v bd)) e i == saldo bd e i + v)%Q.
Proof.
  unfold saldo. simpl. rewrite lookup_upsert_eq.
  destruct (saldo_carteira bd !! (e, i)); lra.
Qed.

(** C10. [depositar] never looks the wallet up and takes no key: for every
    address, also one that is in no row of [carteira], and every currency
    code that resolves to an identifier, it appends the DEPOSITO movement,
    upserts the balance of (address, currency) and returns the receipt; it
    raises only when the code does not resolve, and then changes nothing. *)
Theorem depositar_nao_verifica_carteira e d bd :
  depositar e d bd =
  match id_da_moeda bd (dep_codigo_moeda d) with
  | None => (Raise (MoedaInvalida (dep_codigo_moeda d)), bd)
  | Some i =>
      let id_mov := lastrowid (deposito_saque bd) in
      let novo_saldo := match saldo_carteira bd !! (e, i) with
                        | Some s => (s + dep_valor d)%Q
                        | None => dep_valor d
                        end in
      (Ok (mkReciboMovimentacao id_mov DEPOSITO (dep_valor d) 0 novo_saldo),
       mkBD (carteira bd) (moeda bd)
            (upsert_saldo e i (dep_valor d) (saldo_carteira bd))
            (deposito_saque bd
               ++ [mkMovimentoRow id_mov e i DEPOSITO (dep_valor d) 0])%list
            (conversao bd) (transferencia bd))
  end.
Proof.
  rewrite depositar_eq.
  destruct (id_da_moeda _ _) as [i|]; [| reflexivity].
  cbv zeta. unfold saldo. simpl. rewrite lookup_upsert_eq. reflexivity.
Qed.

(** An address of no wallet receives a deposit. *)
Example depositar_em_endereco_inexistente :
  let r := depositar "zz99" (mkOperacaoDeposito "EUR" 7) bd_exemplo in
  carteira_de bd_exemplo "zz99" = None /\
  sucesso (fst r) = true /\
  saldo_carteira (snd r) !! ("zz99", 2) = Some 7%Q /\
  length (deposito_saque (snd r)) = 1%nat.
Proof. vm_compute. repeat split. Qed.

(** C3, as the code has it. [depositar] does not test the amount: a deposit
    of an amount that is zero or negative, in a currency that resolves,
    succeeds, appends its DEPOSITO movement with that amount and fee 0, and
    adds the amount to the balance. *)
Theorem depositar_aceita_valor_nao_positivo e d bd i :
  (dep_valor d <= 0)%Q ->
  id_da_moeda bd (dep_codigo_moeda d) = Some i ->
  (exists recibo, fst (depositar e d bd) = Ok recibo /\
                  valor recibo = dep_valor d /\ tipo recibo = DEPOSITO) /\
  deposito_saque (snd (depositar e d bd)) =
    (deposito_saque bd
       ++ [mkMovimentoRow (lastrowid (deposito_saque bd)) e i DEPOSITO
             (dep_valor d) 0])%list /\
  (saldo (snd (depositar e d bd)) e i == saldo bd e i + dep_valor d)%Q.
Proof.
  intros _ Hi. rewrite depositar_eq, Hi. cbv zeta. cbn [fst snd].
  split; [eexists; repeat split |].
  split; [reflexivity | apply saldo_apos_deposito].
Qed.

Lemma depositar_aceita_valor_nao_positivo_witness :
  let d := mkOperacaoDeposito "USD" (-5) in
  (saldo (snd (depositar "aa01" d bd_exemplo)) "aa01" 1
   == saldo bd_exemplo "aa01" 1 + dep_valor d)%Q.
Proof.
  refine (proj2 (proj2 (depositar_aceita_valor_nao_positivo "aa01"
            (mkOperacaoDeposito "USD" (-5)) bd_exemplo 1 _ _))).
  - vm_compute. discriminate.
  - reflexivity.
Defined.

(** C3 as stated fails: a deposit of -5 is accepted, its movement is
    recorded and the balance goes from 100 to 95. *)
Lemma depositar_valor_nao_positivo_nao_falha :
  let d := mkOperacaoDeposito "USD" (-5) in
  let r := depositar "aa01" d bd_exemplo in
  (dep_valor d <= 0)%Q /\
  sucesso (fst r) = true /\
  deposito_saque (snd r) = [mkMovimentoRow 1 "aa01" 1 DEPOSITO (-5) 0] /\
  deposito_saque bd_exemplo = [] /\
  (saldo bd_exemplo "aa01" 1 == 100)%Q /\
  (saldo (snd r) "aa01" 1 == 95)%Q.
Proof.
  vm_compute. repeat split; discriminate.
Qed.

(** ** Withdrawals *)

Lemma autorizada_eqb amb bd e chave row :
  carteira_de bd e = Some row ->
  hash_chave_privada row = sha256_hexdigest amb chave ->
  negb (String.eqb (hash_chave_privada row) (sha256_hexdigest amb chave)) = false.
Proof. intros _ ->. rewrite String.eqb_refl. reflexivity. Qed.

(** A withdrawal that passes the three lookups: what is left is the balance
    test. *)
Lemma sacar_autorizada amb e d bd i :
  autorizada amb bd e (saq_chave_privada d) ->
  id_da_moeda bd (saq_codigo_moeda d) = Some i ->
  sacar amb e d bd =
  if Qltb (saldo bd e i) (saque_total_necessario amb d)
  then (Raise SaldoInsuficienteSaque, bd)
  else
    let bd' := snd (realizar_saque (arredondar amb) e i (saq_valor d)
                      (saque_taxa_valor amb d) bd) in
    (Ok (mkReciboMovimentacao (lastrowid (deposito_saque bd)) SAQUE
           (saq_valor d) (saque_taxa_valor amb d) (saldo bd' e i)), bd').
Proof.
  intros [row [Hrow Hh]] Hi.
  rewrite sacar_eq, Hrow, (autorizada_eqb amb bd e _ row Hrow Hh), Hi.
  reflexivity.
Qed.

Lemma saldo_apos_saque arr e i v t bd :
  saldo (snd (realizar_saque arr e i v t bd)) e i =
  match saldo_carteira bd !! (e, i) with
  | Some s => (s - float_add arr v t)%Q
  | None => 0%Q
  end.
Proof.
  unfold saldo. simpl. rewrite lookup_debitar_eq.
  destruct (saldo_carteira bd !! (e, i)); reflexivity.
Qed.

(** In exact arithmetic the total of a withdrawal is [a * (1 + rate)]. *)
Lemma saque_total_exato amb d :
  arredondar amb = (fun y => y) ->
  (saque_total_necessario amb d
   == saq_valor d * (1 + TAXA_SAQUE_PERCENTUAL amb))%Q.
Proof.
  intros Hf. unfold saque_total_necessario, saque_taxa_valor, float_add,
    float_mul.
  rewrite Hf, !arredondar_simetrico_exato. ring.
Qed.



(** The withdrawal fee rate defaults to 0.01, and the example of the
    specification in exact decimal arithmetic: from 100.0, a withdrawal of
    10.0 has fee 0.10 and leaves 89.90. *)
Example sacar_exemplo :
  let r := sacar amb_exemplo "aa01" (mkOperacaoSaque "USD" 10 "k1") bd_exemplo in
  (TAXA_SAQUE_PERCENTUAL amb_exemplo == 1 # 100)%Q /\
  (exists recibo, fst r = Ok recibo /\ (taxa recibo == 1 # 10)%Q /\
                  (saldo_atual recibo == 899 # 10)%Q) /\
  (saldo (snd r) "aa01" 1 == 899 # 10)%Q.
Proof.
  split; [reflexivity |]. split; [| vm_compute; reflexivity].
  eexists. split; [vm_compute; reflexivity |]. split; reflexivity.
Qed.


(** The test is made on floats: with the decimal amounts 0.07, rate 0.01
    and balance 0.0707, for which 0.07 x 1.01 = 0.0707 exactly, the float
    total 0.07 + 0.07 * 0.01 is 0.07070000000000001, above the float 0.0707,
    and the withdrawal is refused. *)
Lemma sacar_binary64_recusa_no_limite :
  let d := mkOperacaoSaque "USD" (f64 (7 # 100)) "k1" in
  let bd := bd_com_saldo (f64 (707 # 10000)) in
  ((7 # 100) * (1 + (1 # 100)) == 707 # 10000)%Q /\
  TAXA_SAQUE_PERCENTUAL amb_binary64 = f64 (1 # 100) /\
  (saldo bd "aa01" 1 < saque_total_necessario amb_binary64 d)%Q /\
  sacar amb_binary64 "aa01" d bd = (Raise SaldoInsuficienteSaque, bd).
Proof.
  cbv zeta. split; [reflexivity |]. split; [reflexivity |].
  assert (H : (saldo (bd_com_saldo (f64 (707 # 10000))) "aa01" 1
               < saque_total_necessario amb_binary64
                   (mkOperacaoSaque "USD" (f64 (7 # 100)) "k1"))%Q)
    by (vm_compute; reflexivity).
  split; [exact H |].
  rewrite (sacar_autorizada amb_binary64 "aa01" _ _ 1).
  - apply Qltb_true in H. rewrite H. reflexivity.
  - exists W. split; reflexivity.
  - reflexivity.
Qed.

(** ** Withdrawals in a row, and interleaved *)

Import Concorrencia.

(** The two phases a handler goes through are [sacar] cut after its balance
    test. *)
Lemma sacar_fases amb e d bd :
  sacar amb e d bd =
  bind (sacar_verificar amb e d) (sacar_efetivar amb e d) bd.
Proof.
  unfold sacar, sacar_verificar, sacar_efetivar, bind, buscar_por_endereco,
    buscar_id_moeda.
  destruct (List.find _ (carteira bd)) as [row|]; [| reflexivity].
  destruct (negb _); [reflexivity |].
  destruct (truthy _) as [i|]; [| reflexivity].
  unfold buscar_saldo_especifico at 1 3.
  destruct (Qltb _ _); reflexivity.
Qed.

(** A handler that is scheduled twice with nobody in between runs [sacar]. *)
Lemma tarefa_sem_intercalacao amb e d bd :
  executar amb [0; 0]%nat ([Pendente e d], bd) =
  ([Terminada (fst (sacar amb e d bd))], snd (sacar amb e d bd)).
Proof.
  rewrite sacar_fases. unfold executar, bind. cbn [fold_left].
  unfold passo at 2. cbn [fst snd lookup list_lookup passo_tarefa].
  destruct (sacar_verificar amb e d bd) as [[p|err] bd1].
  - unfold passo.
    cbn [fst snd lookup list_lookup passo_tarefa insert list_insert].
    destruct (sacar_efetivar amb e d p bd1) as [r bd2]. reflexivity.
  - reflexivity.
Qed.

Lemma sacar_sem_saldo_em_serie amb e d i K : forall bd,
  autorizada amb bd e (saq_chave_privada d) ->
  id_da_moeda bd (saq_codigo_moeda d) = Some i ->
  (saldo bd e i < saque_total_necessario amb d)%Q ->
  sacar_em_serie amb e d K bd = (replicate K (Raise SaldoInsuficienteSaque), bd).
Proof.
  induction K as [|K IH]; intros bd Ha Hi Hlt; [reflexivity |].
  cbn [sacar_em_serie].
  rewrite (sacar_autorizada amb e d bd i Ha Hi). cbv zeta.
  destruct (Qltb _ _) eqn:E; [| apply Qltb_false in E; lra].
  rewrite (IH bd Ha Hi Hlt). reflexivity.
Qed.

(** C9, as the code has it. When [K + 1] equal withdrawals of one verified
    wallet run one after another, and the balance covers the total that the
    code computes (the float [a + a * rate]) once but not twice, the first
    succeeds, the [K] others raise "saldo insuficiente", and the balance ends
    at the initial balance minus that total, which is not negative. *)
Theorem saques_em_serie_um_sucesso amb e d bd i K :
  autorizada amb bd e (saq_chave_privada d) ->
  id_da_moeda bd (saq_codigo_moeda d) = Some i ->
  let total := saque_total_necessario amb d in
  (total <= saldo bd e i)%Q ->
  (saldo bd e i < 2 * total)%Q ->
  exists recibo,
    fst (sacar_em_serie amb e d (S K) bd) =
      Ok recibo :: replicate K (Raise SaldoInsuficienteSaque) /\
    (saldo (snd (sacar_em_serie amb e d (S K) bd)) e i
     == saldo bd e i - total)%Q /\
    (0 <= saldo (snd (sacar_em_serie amb e d (S K) bd)) e i)%Q.
Proof.
  intros Ha Hi total Hle Hlt. subst total.
  cbn [sacar_em_serie].
  rewrite (sacar_autorizada amb e d bd i Ha Hi). cbv zeta.
  destruct (Qltb _ _) eqn:E; [apply Qltb_true in E; lra |].
  set (bd1 := snd (realizar_saque (arredondar amb) e i (saq_valor d)
                     (saque_taxa_valor amb d) bd)).
  assert (Hs1 : (saldo bd1 e i
                 == saldo bd e i - saque_total_necessario amb d)%Q).
  { subst bd1. rewrite saldo_apos_saque.
    fold (saque_total_necessario amb d). unfold saldo in *.
    destruct (saldo_carteira bd !! (e, i)); lra. }
  assert (Ha1 : autorizada amb bd1 e (saq_chave_privada d)) by exact Ha.
  assert (Hi1 : id_da_moeda bd1 (saq_codigo_moeda d) = Some i) by exact Hi.
  rewrite (sacar_sem_saldo_em_serie amb e d i K bd1 Ha1 Hi1) by lra.
  eexists. cbn [fst snd]. split; [reflexivity |]. split; [exact Hs1 | lra].
Qed.

Lemma saques_em_serie_um_sucesso_witness :
  let d := mkOperacaoSaque "USD" 10 "k1" in
  exists recibo,
    fst (sacar_em_serie amb_binary64 "aa01" d 3 bd_20) =
      [Ok recibo; Raise SaldoInsuficienteSaque; Raise SaldoInsuficienteSaque] /\
    (saldo (snd (sacar_em_serie amb_binary64 "aa01" d 3 bd_20)) "aa01" 1
     == saldo bd_20 "aa01" 1 - saque_total_necessario amb_binary64 d)%Q /\
    (0 <= saldo (snd (sacar_em_serie amb_binary64 "aa01" d 3 bd_20)) "aa01" 1)%Q.
Proof.
  refine (saques_em_serie_um_sucesso amb_binary64 "aa01"
            (mkOperacaoSaque "USD" 10 "k1") bd_20 1 2 _ _ _ _).
  - exists W. split; reflexivity.
  - reflexivity.
  - vm_compute. discriminate.
  - vm_compute. reflexivity.
Defined.

(** One after another and at the limit of the decimal numbers: with the
    amount 0.07, the rate 0.01 and the balance 0.0707, the float total is
    above the balance and every withdrawal of the series is refused. *)
Lemma saques_em_serie_binary64_no_limite :
  let d := mkOperacaoSaque "USD" (f64 (7 # 100)) "k1" in
  let bd := bd_com_saldo (f64 (707 # 10000)) in
  sacar_em_serie amb_binary64 "aa01" d 3 bd
  = (replicate 3 (Raise SaldoInsuficienteSaque), bd).
Proof.
  cbv zeta. apply (sacar_sem_saldo_em_serie amb_binary64 "aa01" _ 1).
  - exists W. split; reflexivity.
  - reflexivity.
  - vm_compute. reflexivity.
Qed.

(** C9 as stated fails: the balance test and the debit of [sacar] are two
    transactions.  Two handlers withdraw 10 = 20 / 2 from a balance of 20,
    which covers the total (the float 10.1) once and not twice; when both
    run their test before either debits, both succeed, none raises "saldo
    insuficiente", and the balance ends below zero, at about -0.20. *)
Lemma saques_intercalados_dois_sucessos :
  let d := mkOperacaoSaque "USD" 10 "k1" in
  let total := saque_total_necessario amb_binary64 d in
  let c := executar amb_binary64 [0; 1; 0; 1]%nat
             ([Pendente "aa01" d; Pendente "aa01" d], bd_20) in
  (saq_valor d == saldo bd_20 "aa01" 1 / 2)%Q /\
  (total <= saldo bd_20 "aa01" 1)%Q /\
  (saldo bd_20 "aa01" 1 < 2 * total)%Q /\
  length (List.filter terminou_com_sucesso (fst c)) = 2%nat /\
  length (List.filter terminou_sem_saldo (fst c)) = 0%nat /\
  (saldo (snd c) "aa01" 1 == saldo bd_20 "aa01" 1 - 2 * total)%Q /\
  (saldo (snd c) "aa01" 1 < 0)%Q.
Proof.
  vm_compute. repeat split; discriminate.
Qed.

(** The same two handlers, one after the other: one success, one failure. *)
Example saques_em_serie_exemplo :
  let d := mkOperacaoSaque "USD" 10 "k1" in
  let c := executar amb_binary64 [0; 0; 1; 1]%nat
             ([Pendente "aa01" d; Pendente "aa01" d], bd_20) in
  length (List.filter terminou_com_sucesso (fst c)) = 1%nat /\
  length (List.filter terminou_sem_saldo (fst c)) = 1%nat /\
  (0 <= saldo (snd c) "aa01" 1)%Q.
Proof.
  vm_compute. repeat split. discriminate.
Qed.

(** ** Balances stay non-negative *)

Lemma upsert_nao_negativo (e : string) (i : Z) (v : Q)
  (m : gmap (string * Z) Q) :
  (forall k s, m !! k = Some s -> (0 <= s)%Q) ->
  (0 <= v)%Q ->
  forall k s, upsert_saldo e i v m !! k = Some s -> (0 <= s)%Q.
Proof.
  intros Hm Hv k s. destruct (decide ((e, i) = k)) as [<-|Hne].
  - rewrite lookup_upsert_eq. destruct (m !! (e, i)) as [s0|] eqn:E.
    + intros [= <-]. specialize (Hm _ _ E). lra.
    + intros [= <-]. exact Hv.
  - rewrite lookup_upsert_ne by exact Hne. apply Hm.
Qed.

Lemma debitar_nao_negativo (e : string) (i : Z) (t : Q)
  (m : gmap (string * Z) Q) :
  (forall k s, m !! k = Some s -> (0 <= s)%Q) ->
  (t <= match m !! (e, i) with Some s => s | None => 0 end)%Q ->
  forall k s, debitar_saldo e i t m !! k = Some s -> (0 <= s)%Q.
Proof.
  intros Hm Ht k s. destruct (decide ((e, i) = k)) as [<-|Hne].
  - rewrite lookup_debitar_eq. destruct (m !! (e, i)) as [s0|] eqn:E; simpl.
    + intros [= <-]. lra.
    + discriminate.
  - rewrite lookup_debitar_ne by exact Hne. apply Hm.
Qed.

Lemma depositar_nao_negativo e d bd :
  (0 <= dep_valor d)%Q -> saldos_nao_negativos bd ->
  saldos_nao_negativos (snd (depositar e d bd)).
Proof.
  intros Hv Hbd. rewrite depositar_eq.
  destruct (id_da_moeda _ _) as [i|]; [| exact Hbd].
  unfold saldos_nao_negativos. simpl.
  apply upsert_nao_negativo; assumption.
Qed.

Lemma sacar_nao_negativo amb e d bd :
  saldos_nao_negativos bd -> saldos_nao_negativos (snd (sacar amb e d bd)).
Proof.
  intros Hbd. rewrite sacar_eq.
  destruct (carteira_de _ _); [| exact Hbd].
  destruct (negb _); [exact Hbd |].
  destruct (id_da_moeda _ _) as [i|]; [| exact Hbd].
  cbv zeta. destruct (Qltb _ _) eqn:E; [exact Hbd |].
  apply Qltb_false in E. unfold saldos_nao_negativos. simpl.
  apply debitar_nao_negativo; assumption.
Qed.

Lemma converter_nao_negativo amb e d bd :
  (forall cot, coinbase_spot amb (par_de amb d) = Some cot ->
               (0 <= conversao_valor_destino amb d cot)%Q) ->
  saldos_nao_negativos bd -> saldos_nao_negativos (snd (converter amb e d bd)).
Proof.
  intros Hv Hbd. rewrite converter_eq.
  destruct (carteira_de _ _); [| exact Hbd].
  destruct (negb _); [exact Hbd |].
  destruct (id_da_moeda _ _) as [io|]; [| exact Hbd].
  destruct (id_da_moeda _ _) as [id|]; [| exact Hbd].
  destruct (coinbase_spot _ _) as [cot|]; [| exact Hbd].
  cbv zeta. destruct (Qltb _ _) eqn:E; [exact Hbd |].
  apply Qltb_false in E. unfold saldos_nao_negativos. simpl.
  apply upsert_nao_negativo; [| apply Hv; reflexivity].
  apply debitar_nao_negativo; assumption.
Qed.

Lemma transferir_nao_negativo amb e d bd :
  (0 <= tr_valor d)%Q ->
  saldos_nao_negativos bd -> saldos_nao_negativos (snd (transferir amb e d bd)).
Proof.
  intros Hv Hbd. rewrite transferir_eq.
  destruct (carteira_de bd e); [| exact Hbd].
  destruct (negb _); [exact Hbd |].
  destruct (String.eqb _ _); [exact Hbd |].
  destruct (carteira_de _ _); [| exact Hbd].
  destruct (negb _); [exact Hbd |].
  destruct (id_da_moeda _ _) as [i|]; [| exact Hbd].
  cbv zeta. destruct (Qltb _ _) eqn:E; [exact Hbd |].
  apply Qltb_false in E. unfold saldos_nao_negativos. simpl.
  apply upsert_nao_negativo; [| exact Hv].
  apply debitar_nao_negativo; assumption.
Qed.

Lemma snd_aplicar amb op bd :
  snd (aplicar amb op bd) =
  match op with
  | Depositar e d => snd (depositar e d bd)
  | Sacar e d => snd (sacar amb e d bd)
  | Converter e d => snd (converter amb e d bd)
  | Transferir e d => snd (transferir amb e d bd)
  end.
Proof.
  destruct op as [e d|e d|e d|e d]; simpl.
  - destruct (depositar e d bd); reflexivity.
  - destruct (sacar amb e d bd); reflexivity.
  - destruct (converter amb e d bd); reflexivity.
  - destruct (transferir amb e d bd); reflexivity.
Qed.

(** C2, as the code has it. If every stored balance is non-negative before
    an operation, every stored balance is non-negative after it, for every
    withdrawal, for every deposit and transfer of a non-negative amount, and
    for every conversion whose credited amount (amount times quoted rate) is
    non-negative; whether the operation succeeds or raises. *)
Theorem saldos_nao_negativos_preservados amb op bd :
  credito_nao_negativo amb op ->
  saldos_nao_negativos bd ->
  saldos_nao_negativos (snd (aplicar amb op bd)).
Proof.
  intros Hop Hbd. rewrite snd_aplicar.
  destruct op as [e d|e d|e d|e d]; simpl in Hop.
  - apply depositar_nao_negativo; assumption.
  - apply sacar_nao_negativo; assumption.
  - apply converter_nao_negativo; assumption.
  - apply transferir_nao_negativo; assumption.
Qed.

Lemma bd_exemplo_nao_negativo : saldos_nao_negativos bd_exemplo.
Proof.
  intros k s. unfold bd_exemplo. simpl.
  destruct (decide (("aa01", 1) = k)) as [<-|H1].
  - rewrite lookup_insert_eq. intros [= <-]. discriminate.
  - rewrite lookup_insert_ne by exact H1.
    destruct (decide (("bb02", 1) = k)) as [<-|H2].
    + rewrite lookup_insert_eq. intros [= <-]. discriminate.
    + rewrite lookup_insert_ne by exact H2. rewrite lookup_empty. discriminate.
Qed.

Lemma saldos_nao_negativos_preservados_witness :
  saldos_nao_negativos
    (snd (aplicar amb_exemplo
            (Transferir "aa01" (mkOperacaoTransferencia "cc03" "USD" 50 "k1"))
            bd_exemplo)).
Proof.
  apply (saldos_nao_negativos_preservados amb_exemplo
           (Transferir "aa01" (mkOperacaoTransferencia "cc03" "USD" 50 "k1"))
           bd_exemplo).
  - simpl. discriminate.
  - exact bd_exemplo_nao_negativo.
Defined.

(** C2 as stated fails: with no balance below zero before it, a deposit of
    -5 leaves the balance of its pair at -5. *)
Lemma deposito_negativo_saldo_negativo :
  let op := Depositar "aa01" (mkOperacaoDeposito "USD" (-5)) in
  saldos_nao_negativos bd_vazio /\
  fst (aplicar amb_exemplo op bd_vazio) = None /\
  saldo_carteira (snd (aplicar amb_exemplo op bd_vazio)) !! ("aa01", 1)
    = Some (-5)%Q /\
  ~ saldos_nao_negativos (snd (aplicar amb_exemplo op bd_vazio)).
Proof.
  cbv zeta. split; [| split; [| split]].
  - intros k s. unfold bd_vazio. simpl. rewrite lookup_empty. discriminate.
  - reflexivity.
  - reflexivity.
  - intros H. specialize (H ("aa01", 1) (-5)%Q eq_refl).
    revert H. vm_compute. intros H. apply H. reflexivity.
Qed.

(** ** Conversions *)



(** A conversion that passes the lookups and has a quote: what is left is
    the balance test. *)
Lemma converter_autorizada amb e d bd io id r :
  autorizada amb bd e (cv_chave_privada d) ->
  id_da_moeda bd (cv_moeda_origem d) = Some io ->
  id_da_moeda bd (cv_moeda_destino d) = Some id ->
  coinbase_spot amb (par_de amb d) = Some r ->
  converter amb e d bd =
  if Qltb (saldo bd e io) (conversao_total_debito amb d)
  then (Raise (SaldoInsuficienteConversao (cv_moeda_origem d)), bd)
  else
    (Ok (mkReciboConversao (lastrowid (conversao bd))
           (cv_moeda_origem d) (cv_moeda_destino d) (cv_valor d)
           (conversao_valor_destino amb d r) (conversao_taxa_valor amb d) r),
     snd (realizar_conversao (arredondar amb) e io id (cv_valor d)
            (conversao_valor_destino amb d r) (conversao_taxa_valor amb d)
            (TAXA_CONVERSAO_PERCENTUAL amb) r bd)).
Proof.
  intros [row [Hrow Hh]] Hio Hid Hr.
  rewrite converter_eq, Hrow, (autorizada_eqb amb bd e _ row Hrow Hh),
    Hio, Hid, Hr.
  reflexivity.
Qed.




(** The balance test is made on floats: converting the decimal amount 0.05
    at rate 0.02 from a balance of 0.051, for which 0.05 x 1.02 = 0.051
    exactly, is refused, because the float total 0.05 + 0.05 * 0.02 is
    0.051000000000000004. *)
Lemma converter_binary64_recusa_no_limite :
  let d := mkOperacaoConversao "USD" "EUR" (f64 (5 # 100)) "k1" in
  let bd := bd_com_saldo (f64 (51 # 1000)) in
  ((5 # 100) * (1 + (2 # 100)) == 51 # 1000)%Q /\
  (saldo bd "aa01" 1 < conversao_total_debito amb_binary64 d)%Q /\
  converter amb_binary64 "aa01" d bd
  = (Raise (SaldoInsuficienteConversao "USD"), bd).
Proof.
  cbv zeta. split; [reflexivity |].
  assert (H : (saldo (bd_com_saldo (f64 (51 # 1000))) "aa01" 1
               < conversao_total_debito amb_binary64
                   (mkOperacaoConversao "USD" "EUR" (f64 (5 # 100)) "k1"))%Q)
    by (vm_compute; reflexivity).
  split; [exact H |].
  rewrite (converter_autorizada amb_binary64 "aa01" _ _ 1 2 (f64 (9 # 10))).
  - apply Qltb_true in H. rewrite H. reflexivity.
  - exists W. split; reflexivity.
  - reflexivity.
  - reflexivity.
  - reflexivity.
Qed.

(** A conversion of a currency into itself, when the quote service prices
    the pair, debits and credits one row: in exact decimal arithmetic, from
    100, converting 50 at rate 1 leaves 99, neither 100 - 51 nor 100 + 50. *)
Example converter_mesma_moeda :
  let d := mkOperacaoConversao "USD" "USD" 50 "k1" in
  let r := converter amb_exemplo "aa01" d bd_exemplo in
  sucesso (fst r) = true /\ (saldo (snd r) "aa01" 1 == 99)%Q.
Proof. cbv zeta. split; vm_compute; reflexivity. Qed.

(** ** Blocked wallets *)














(** * Further properties of the repository, the service and the routes *)

(** ** Blocking a wallet *)

Lemma carteira_de_apos_status e e' novo bd :
  carteira_de (snd (atualizar_status e novo bd)) e' =
  option_map (fun r => if String.eqb (endereco_carteira r) e
                       then com_status novo r else r)
             (carteira_de bd e').
Proof.
  unfold carteira_de. simpl.
  induction (carteira bd) as [|r l IH]; [reflexivity |].
  simpl. destruct (String.eqb (endereco_carteira r) e) eqn:E; simpl.
  - destruct (String.eqb (endereco_carteira r) e'); [| exact IH].
    simpl. rewrite E. reflexivity.
  - destruct (String.eqb (endereco_carteira r) e'); [| exact IH].
    simpl. rewrite E. reflexivity.
Qed.

Lemma carteira_de_endereco bd e row :
  carteira_de bd e = Some row -> endereco_carteira row = e.
Proof.
  unfold carteira_de. intros H. apply find_some in H as [_ H].
  apply String.eqb_eq. exact H.
Qed.

Lemma map_status_sem_linha e novo (l : list CarteiraRow) :
  List.find (fun r => String.eqb (endereco_carteira r) e) l = None ->
  List.map (fun r => if String.eqb (endereco_carteira r) e
                     then mkCarteiraRow (endereco_carteira r) (data_criacao r)
                            novo (hash_chave_privada r)
                     else r) l = l.
Proof.
  induction l as [|r l IH]; [reflexivity |].
  simpl. destruct (String.eqb (endereco_carteira r) e); [discriminate |].
  intros H. rewrite (IH H). reflexivity.
Qed.

Lemma bloquear_eq e bd :
  bloquear e bd =
  match carteira_de bd e with
  | None => (Raise CarteiraNaoEncontrada, bd)
  | Some row =>
      (Ok (com_status BLOQUEADA row), snd (atualizar_status e BLOQUEADA bd))
  end.
Proof.
  unfold bloquear, bind.
  pose proof (carteira_de_apos_status e e BLOQUEADA bd) as H.
  destruct (atualizar_status e BLOQUEADA bd) as [r bd1] eqn:E.
  assert (Hr : r = Ok (carteira_de bd1 e)).
  { unfold atualizar_status in E. injection E as <- <-. reflexivity. }
  subst r. cbn [snd] in H. rewrite H.
  destruct (carteira_de bd e) as [row|] eqn:Hrow; simpl.
  - rewrite (carteira_de_endereco bd e row Hrow), String.eqb_refl. reflexivity.
  - unfold raise. f_equal.
    unfold atualizar_status in E. injection E as _ <-.
    unfold carteira_de in Hrow. rewrite (map_status_sem_linha e _ _ Hrow).
    destruct bd; reflexivity.
Qed.

(** X1. Blocking a wallet that exists returns its row with status BLOQUEADA
    and the same address, creation date and key hash, and the wallet is then
    read back with exactly that row. *)
Theorem bloquear_carteira_existente e bd row :
  carteira_de bd e = Some row ->
  fst (bloquear e bd) = Ok (com_status BLOQUEADA row) /\
  carteira_de (snd (bloquear e bd)) e = Some (com_status BLOQUEADA row) /\
  status (com_status BLOQUEADA row) = BLOQUEADA /\
  hash_chave_privada (com_status BLOQUEADA row) = hash_chave_privada row.
Proof.
  intros Hrow. rewrite bloquear_eq, Hrow. cbn [fst snd].
  split; [reflexivity |]. split; [| split; reflexivity].
  rewrite carteira_de_apos_status, Hrow. simpl.
  rewrite (carteira_de_endereco bd e row Hrow), String.eqb_refl. reflexivity.
Qed.

Lemma bloquear_carteira_existente_witness :
  carteira_de (snd (bloquear "aa01" bd_exemplo)) "aa01"
  = Some (com_status BLOQUEADA W).
Proof.
  refine (proj1 (proj2 (bloquear_carteira_existente "aa01" bd_exemplo W _))).
  reflexivity.
Defined.

(** X2. Blocking an address that has no wallet raises "carteira nao
    encontrada" and leaves the whole database as it was. *)
Theorem bloquear_carteira_inexistente e bd :
  carteira_de bd e = None ->
  bloquear e bd = (Raise CarteiraNaoEncontrada, bd).
Proof. intros H. rewrite bloquear_eq, H. reflexivity. Qed.

Lemma bloquear_carteira_inexistente_witness :
  bloquear "zz99" bd_exemplo = (Raise CarteiraNaoEncontrada, bd_exemplo).
Proof.
  apply (bloquear_carteira_inexistente "zz99" bd_exemplo). reflexivity.
Defined.

Lemma snd_bloquear e bd :
  snd (bloquear e bd) = snd (atualizar_status e BLOQUEADA bd).
Proof.
  rewrite bloquear_eq. destruct (carteira_de bd e) as [row|] eqn:H.
  - reflexivity.
  - cbn [snd]. unfold atualizar_status. cbn [snd].
    unfold carteira_de in H. rewrite (map_status_sem_linha e _ _ H).
    destruct bd; reflexivity.
Qed.

(** X3. Blocking touches nothing but the status of the wallets at the given
    address: currencies, balances and the three ledgers are the same, the
    number of wallets is the same, every other address reads the same row,
    and a key that was accepted for a wallet is still accepted. *)
Theorem bloquear_so_altera_status amb e bd :
  let bd' := snd (bloquear e bd) in
  moeda bd' = moeda bd /\
  saldo_carteira bd' = saldo_carteira bd /\
  deposito_saque bd' = deposito_saque bd /\
  conversao bd' = conversao bd /\
  transferencia bd' = transferencia bd /\
  length (carteira bd') = length (carteira bd) /\
  (forall e', e' <> e -> carteira_de bd' e' = carteira_de bd e') /\
  (forall e' chave, autorizada amb bd e' chave -> autorizada amb bd' e' chave).
Proof.
  cbv zeta. rewrite snd_bloquear.
  repeat split.
  - simpl. apply length_map.
  - intros e' Hne. rewrite carteira_de_apos_status.
    destruct (carteira_de bd e') as [r|] eqn:H; [| reflexivity].
    simpl. rewrite (carteira_de_endereco bd e' r H).
    apply String.eqb_neq in Hne. rewrite Hne. reflexivity.
  - intros e' chave [r [Hr Hh]]. unfold autorizada.
    rewrite carteira_de_apos_status, Hr. simpl.
    destruct (String.eqb (endereco_carteira r) e); eexists;
      (split; [reflexivity | exact Hh]).
Qed.

(** X4. Blocking is idempotent: blocking a second time leaves the database
    that the first blocking produced. *)
Theorem bloquear_idempotente e bd :
  snd (bloquear e (snd (bloquear e bd))) = snd (bloquear e bd).
Proof.
  rewrite !snd_bloquear. unfold atualizar_status. cbn [snd carteira moeda
    saldo_carteira deposito_saque conversao transferencia].
  f_equal. rewrite List.map_map. apply List.map_ext. intros r.
  destruct (String.eqb (endereco_carteira r) e) eqn:E; simpl.
  - rewrite E. reflexivity.
  - rewrite E. reflexivity.
Qed.

Lemma bloquear_so_altera_status_witness :
  carteira_de (snd (bloquear "bb02" bd_exemplo)) "aa01" = Some W /\
  autorizada amb_exemplo (snd (bloquear "aa01" bd_exemplo)) "aa01" "k1".
Proof.
  pose proof (bloquear_so_altera_status amb_exemplo "bb02" bd_exemplo)
    as (_ & _ & _ & _ & _ & _ & Houtra & _).
  pose proof (bloquear_so_altera_status amb_exemplo "aa01" bd_exemplo)
    as (_ & _ & _ & _ & _ & _ & _ & Hchave).
  split.
  - rewrite (Houtra "aa01"); [reflexivity | discriminate].
  - apply Hchave. exists W. split; reflexivity.
Defined.

(** ** What the calls of the service keep *)

Lemma operacao_preserva_tabelas amb op bd :
  carteira (snd (aplicar amb op bd)) = carteira bd /\
  moeda (snd (aplicar amb op bd)) = moeda bd.
Proof.
  rewrite snd_aplicar. destruct op as [e d|e d|e d|e d].
  - rewrite depositar_eq. destruct (id_da_moeda _ _); split; reflexivity.
  - rewrite sacar_eq.
    destruct (carteira_de _ _); [| split; reflexivity].
    destruct (negb _); [split; reflexivity |].
    destruct (id_da_moeda _ _); [| split; reflexivity].
    cbv zeta. destruct (Qltb _ _); split; reflexivity.
  - rewrite converter_eq.
    destruct (carteira_de _ _); [| split; reflexivity].
    destruct (negb _); [split; reflexivity |].
    destruct (id_da_moeda _ _); [| split; reflexivity].
    destruct (id_da_moeda _ _); [| split; reflexivity].
    destruct (coinbase_spot _ _); [| split; reflexivity].
    cbv zeta. destruct (Qltb _ _); split; reflexivity.
  - rewrite transferir_eq.
    destruct (carteira_de bd e); [| split; reflexivity].
    destruct (negb _); [split; reflexivity |].
    destruct (String.eqb _ _); [split; reflexivity |].
    destruct (carteira_de _ _); [| split; reflexivity].
    destruct (negb _); [split; reflexivity |].
    destruct (id_da_moeda _ _); [| split; reflexivity].
    cbv zeta. destruct (Qltb _ _); split; reflexivity.
Qed.

(** X5. A deposit, withdrawal, conversion or transfer, whether it succeeds
    or raises, leaves the tables of wallets and of currencies as they were;
    so every key stays accepted and every currency code resolves as before. *)
Theorem operacoes_nao_tocam_carteiras_nem_moedas amb op bd :
  let bd' := snd (aplicar amb op bd) in
  carteira bd' = carteira bd /\
  moeda bd' = moeda bd /\
  (forall e, carteira_de bd' e = carteira_de bd e) /\
  (forall codigo, id_da_moeda bd' codigo = id_da_moeda bd codigo).
Proof.
  cbv zeta. destruct (operacao_preserva_tabelas amb op bd) as [Hc Hm].
  repeat split; try assumption.
  - intros e. unfold carteira_de. rewrite Hc. reflexivity.
  - intros codigo. unfold id_da_moeda. rewrite Hm. reflexivity.
Qed.

Lemma find_app_Some {A : Type} (p : A -> bool) (l k : list A) x :
  List.find p l = Some x -> List.find p (l ++ k)%list = Some x.
Proof.
  induction l as [|a l IH]; simpl; [discriminate |].
  destruct (p a); [trivial | exact IH].
Qed.

Lemma carteira_de_apos_criar amb k e' dt st bd e row :
  carteira_de bd e = Some row ->
  carteira_de (snd (CarteiraServiceConsultas.criar_carteira amb k e' dt st bd)) e
  = Some row.
Proof.
  intros H. unfold CarteiraServiceConsultas.criar_carteira, bind, criar,
    carteira_de. simpl.
  apply find_app_Some. exact H.
Qed.

Lemma bloqueada_apos_chamada amb c bd e row :
  carteira_de bd e = Some row -> status row = BLOQUEADA ->
  exists row', carteira_de (apos_chamada amb bd c) e = Some row' /\
               status row' = BLOQUEADA /\
               hash_chave_privada row' = hash_chave_privada row.
Proof.
  intros Hrow Hst. destruct c as [k e' dt st|e'|op]; simpl.
  - exists row. split; [| split; [exact Hst | reflexivity]].
    apply carteira_de_apos_criar. exact Hrow.
  - rewrite snd_bloquear, carteira_de_apos_status, Hrow. simpl.
    destruct (String.eqb (endereco_carteira row) e'); eexists;
      (split; [reflexivity | split; [assumption || reflexivity | reflexivity]]).
  - exists row. split; [| split; [exact Hst | reflexivity]].
    unfold carteira_de.
    rewrite (proj1 (operacao_preserva_tabelas amb op bd)). exact Hrow.
Qed.

(** X6. Blocking is one-way: after any sequence of service calls (creating
    wallets, blocking, depositing, withdrawing, converting, transferring) a
    wallet that was BLOQUEADA is still BLOQUEADA, with the same key hash. *)
Theorem bloqueio_permanente amb cs : forall bd e row,
  carteira_de bd e = Some row ->
  status row = BLOQUEADA ->
  exists row', carteira_de (apos_chamadas amb cs bd) e = Some row' /\
               status row' = BLOQUEADA /\
               hash_chave_privada row' = hash_chave_privada row.
Proof.
  induction cs as [|c cs IH]; intros bd e row Hrow Hst.
  - exists row. repeat split; assumption.
  - destruct (bloqueada_apos_chamada amb c bd e row Hrow Hst)
      as (row1 & H1 & Hst1 & Hh1).
    destruct (IH (apos_chamada amb bd c) e row1 H1 Hst1)
      as (row2 & H2 & Hst2 & Hh2).
    exists row2. split; [exact H2 |]. split; [exact Hst2 | congruence].
Qed.

Lemma bloqueio_permanente_witness :
  exists row',
    carteira_de
      (apos_chamadas amb_exemplo
         [Operar (Depositar "bb02" (mkOperacaoDeposito "USD" 5));
          Criar "k9" "dd04" 3 ATIVA; Bloquear "aa01";
          Operar (Sacar "bb02" (mkOperacaoSaque "USD" 10 "k2"))]
         bd_exemplo) "bb02" = Some row' /\
    status row' = BLOQUEADA /\
    hash_chave_privada row' = hash_chave_privada X.
Proof.
  apply (bloqueio_permanente amb_exemplo _ bd_exemplo "bb02" X);
    reflexivity.
Defined.

(** X7. Once an existing wallet has been blocked, every transfer to it
    raises and changes nothing, and a transfer from another wallet with the
    right key raises "carteira de destino bloqueada", whatever the balance. *)
Theorem transferir_apos_bloquear_destino amb e d bd drow :
  carteira_de bd (tr_endereco_destino d) = Some drow ->
  let bd1 := snd (bloquear (tr_endereco_destino d) bd) in
  (exists err, transferir amb e d bd1 = (Raise err, bd1)) /\
  (autorizada amb bd e (tr_chave_privada d) ->
   e <> tr_endereco_destino d ->
   transferir amb e d bd1 = (Raise CarteiraDestinoBloqueada, bd1)).
Proof.
  intros Hd bd1.
  assert (Hd1 : carteira_de bd1 (tr_endereco_destino d)
                = Some (com_status BLOQUEADA drow)).
  { subst bd1. rewrite snd_bloquear, carteira_de_apos_status, Hd. simpl.
    rewrite (carteira_de_endereco bd _ drow Hd), String.eqb_refl.
    reflexivity. }
  rewrite transferir_eq, Hd1. simpl. split.
  - destruct (carteira_de bd1 e) as [row|]; [| eauto].
    destruct (negb _); [eauto |].
    destruct (String.eqb _ _); eauto.
  - intros [row [Hrow Hh]] Hne.
    assert (Hrow1 : carteira_de bd1 e = Some row).
    { subst bd1. rewrite snd_bloquear, carteira_de_apos_status, Hrow. simpl.
      rewrite (carteira_de_endereco bd e row Hrow).
      apply String.eqb_neq in Hne. rewrite Hne. reflexivity. }
    rewrite Hrow1, Hh, String.eqb_refl. simpl.
    apply String.eqb_neq in Hne. rewrite Hne. reflexivity.
Qed.

Lemma transferir_apos_bloquear_destino_witness :
  let d := mkOperacaoTransferencia "cc03" "USD" 50 "k1" in
  sucesso (fst (transferir amb_exemplo "aa01" d bd_exemplo)) = true /\
  transferir amb_exemplo "aa01" d (snd (bloquear "cc03" bd_exemplo))
  = (Raise CarteiraDestinoBloqueada, snd (bloquear "cc03" bd_exemplo)).
Proof.
  split; [reflexivity |].
  refine (proj2 (transferir_apos_bloquear_destino amb_exemplo "aa01"
            (mkOperacaoTransferencia "cc03" "USD" 50 "k1") bd_exemplo Y _)
            _ _).
  - reflexivity.
  - exists W. split; reflexivity.
  - discriminate.
Defined.

(** ** The ledgers *)

Lemma fst_aplicar amb op bd :
  fst (aplicar amb op bd) =
  match op with
  | Depositar e d => erro (fst (depositar e d bd))
  | Sacar e d => erro (fst (sacar amb e d bd))
  | Converter e d => erro (fst (converter amb e d bd))
  | Transferir e d => erro (fst (transferir amb e d bd))
  end.
Proof.
  destruct op as [e d|e d|e d|e d]; simpl.
  - destruct (depositar e d bd); reflexivity.
  - destruct (sacar amb e d bd); reflexivity.
  - destruct (converter amb e d bd); reflexivity.
  - destruct (transferir amb e d bd); reflexivity.
Qed.

Ltac caso_sem_escrita :=
  cbn [fst snd erro]; repeat split; try reflexivity; lia.

Ltac caso_com_escrita :=
  cbn [fst snd erro]; unfold registros; simpl;
  repeat split; try reflexivity; try (eexists; reflexivity);
  rewrite ?length_app; simpl; lia.

Lemma operacao_e_registros amb op bd :
  let bd' := snd (aplicar amb op bd) in
  deposito_saque bd `prefix_of` deposito_saque bd' /\
  conversao bd `prefix_of` conversao bd' /\
  transferencia bd `prefix_of` transferencia bd' /\
  registros bd' = (registros bd
                   + match fst (aplicar amb op bd) with
                     | None => 1
                     | Some _ => 0
                     end)%nat.
Proof.
  cbv zeta. rewrite snd_aplicar, fst_aplicar.
  destruct op as [e d|e d|e d|e d].
  - rewrite depositar_eq. destruct (id_da_moeda _ _);
      [caso_com_escrita | caso_sem_escrita].
  - rewrite sacar_eq.
    destruct (carteira_de _ _); [| caso_sem_escrita].
    destruct (negb _); [caso_sem_escrita |].
    destruct (id_da_moeda _ _); [| caso_sem_escrita].
    cbv zeta. destruct (Qltb _ _); [caso_sem_escrita | caso_com_escrita].
  - rewrite converter_eq.
    destruct (carteira_de _ _); [| caso_sem_escrita].
    destruct (negb _); [caso_sem_escrita |].
    destruct (id_da_moeda _ _); [| caso_sem_escrita].
    destruct (id_da_moeda _ _); [| caso_sem_escrita].
    destruct (coinbase_spot _ _); [| caso_sem_escrita].
    cbv zeta. destruct (Qltb _ _); [caso_sem_escrita | caso_com_escrita].
  - rewrite transferir_eq.
    destruct (carteira_de bd e); [| caso_sem_escrita].
    destruct (negb _); [caso_sem_escrita |].
    destruct (String.eqb _ _); [caso_sem_escrita |].
    destruct (carteira_de _ _); [| caso_sem_escrita].
    destruct (negb _); [caso_sem_escrita |].
    destruct (id_da_moeda _ _); [| caso_sem_escrita].
    cbv zeta. destruct (Qltb _ _); [caso_sem_escrita | caso_com_escrita].
Qed.

(** X8. A deposit, withdrawal, conversion or transfer that succeeds adds
    exactly one row to the ledgers, and one that raises adds none. *)
Theorem sucesso_registra_uma_linha amb op bd :
  registros (snd (aplicar amb op bd)) =
  (registros bd + match fst (aplicar amb op bd) with
                  | None => 1
                  | Some _ => 0
                  end)%nat.
Proof. apply (operacao_e_registros amb op bd). Qed.

Lemma chamada_e_registros amb c bd :
  deposito_saque bd `prefix_of` deposito_saque (apos_chamada amb bd c) /\
  conversao bd `prefix_of` conversao (apos_chamada amb bd c) /\
  transferencia bd `prefix_of` transferencia (apos_chamada amb bd c).
Proof.
  destruct c as [k e dt st|e|op]; simpl.
  - repeat split; reflexivity.
  - rewrite snd_bloquear. repeat split; reflexivity.
  - destruct (operacao_e_registros amb op bd) as (H1 & H2 & H3 & _).
    repeat split; assumption.
Qed.

(** X9. The three ledgers are append-only: after any sequence of service
    calls, each ledger starts with the rows it had before, unchanged and in
    the same order. *)
Theorem registros_so_crescem amb cs : forall bd,
  deposito_saque bd `prefix_of` deposito_saque (apos_chamadas amb cs bd) /\
  conversao bd `prefix_of` conversao (apos_chamadas amb cs bd) /\
  transferencia bd `prefix_of` transferencia (apos_chamadas amb cs bd).
Proof.
  induction cs as [|c cs IH]; intros bd.
  - repeat split; reflexivity.
  - destruct (chamada_e_registros amb c bd) as (H1 & H2 & H3).
    destruct (IH (apos_chamada amb bd c)) as (K1 & K2 & K3).
    cbn [apos_chamadas fold_left]. fold (apos_chamadas amb cs).
    repeat split; etrans; eassumption.
Qed.

(** ** What a successful operation writes *)





(** X12. A request that names an existing wallet with a key that does not
    hash to the stored hash is refused with "chave privada invalida" by
    [sacar], [converter] and [transferir] alike, before any currency, quote
    or balance is looked at, and the database is unchanged. *)
Theorem chave_errada_recusada amb e bd row :
  carteira_de bd e = Some row ->
  (forall d,
     hash_chave_privada row <> sha256_hexdigest amb (saq_chave_privada d) ->
     sacar amb e d bd = (Raise ChavePrivadaInvalida, bd)) /\
  (forall d,
     hash_chave_privada row <> sha256_hexdigest amb (cv_chave_privada d) ->
     converter amb e d bd = (Raise ChavePrivadaInvalida, bd)) /\
  (forall d,
     hash_chave_privada row <> sha256_hexdigest amb (tr_chave_privada d) ->
     transferir amb e d bd = (Raise ChavePrivadaInvalida, bd)).
Proof.
  intros Hrow. repeat split; intros d Hne; apply String.eqb_neq in Hne.
  - rewrite sacar_eq, Hrow, Hne. reflexivity.
  - rewrite converter_eq, Hrow, Hne. reflexivity.
  - rewrite transferir_eq, Hrow, Hne. reflexivity.
Qed.

Lemma chave_errada_recusada_witness :
  sacar amb_exemplo "aa01" (mkOperacaoSaque "USD" 10 "k2") bd_exemplo
  = (Raise ChavePrivadaInvalida, bd_exemplo) /\
  transferir amb_exemplo "aa01" (mkOperacaoTransferencia "cc03" "XXX" 10 "k2")
    bd_exemplo = (Raise ChavePrivadaInvalida, bd_exemplo).
Proof.
  destruct (chave_errada_recusada amb_exemplo "aa01" bd_exemplo W eq_refl)
    as (Hs & _ & Ht).
  split; [apply Hs | apply Ht]; discriminate.
Defined.





(** ** Invariants over sequences of calls *)

Lemma operacao_registros_coerentes amb op bd :
  registros_coerentes amb bd ->
  registros_coerentes amb (snd (aplicar amb op bd)).
Proof.
  intros (Hm & Hc & Ht). rewrite snd_aplicar.
  assert (H0 : registros_coerentes amb bd) by (repeat split; assumption).
  destruct op as [e d|e d|e d|e d].
  - rewrite depositar_eq. destruct (id_da_moeda _ _); [| exact H0].
    split; [| split; assumption]. simpl.
    apply Forall_app. split; [exact Hm |].
    constructor; [reflexivity | constructor].
  - rewrite sacar_eq.
    destruct (carteira_de _ _); [| exact H0].
    destruct (negb _); [exact H0 |].
    destruct (id_da_moeda _ _); [| exact H0].
    cbv zeta. destruct (Qltb _ _); [exact H0 |].
    split; [| split; assumption]. simpl.
    apply Forall_app. split; [exact Hm |].
    constructor; [reflexivity | constructor].
  - rewrite converter_eq.
    destruct (carteira_de _ _); [| exact H0].
    destruct (negb _); [exact H0 |].
    destruct (id_da_moeda _ _); [| exact H0].
    destruct (id_da_moeda _ _); [| exact H0].
    destruct (coinbase_spot _ _); [| exact H0].
    cbv zeta. destruct (Qltb _ _); [exact H0 |].
    split; [exact Hm |]. split; [| exact Ht]. simpl.
    apply Forall_app. split; [exact Hc |].
    constructor; [repeat split | constructor].
  - rewrite transferir_eq.
    destruct (carteira_de bd e); [| exact H0].
    destruct (negb _); [exact H0 |].
    destruct (String.eqb e _) eqn:Ee; [exact H0 |].
    destruct (carteira_de _ _); [| exact H0].
    destruct (negb _); [exact H0 |].
    destruct (id_da_moeda _ _); [| exact H0].
    cbv zeta. destruct (Qltb _ _); [exact H0 |].
    split; [exact Hm |]. split; [exact Hc |]. simpl.
    apply Forall_app. split; [exact Ht |].
    constructor; [| constructor].
    split; [| reflexivity]. simpl. apply String.eqb_neq. exact Ee.
Qed.

Lemma chamada_registros_coerentes amb c bd :
  registros_coerentes amb bd ->
  registros_coerentes amb (apos_chamada amb bd c).
Proof.
  intros H. destruct c as [k e dt st|e|op]; simpl.
  - exact H.
  - rewrite snd_bloquear. exact H.
  - apply operacao_registros_coerentes. exact H.
Qed.

(** X15. Every row that the service writes into a ledger is coherent, and
    stays so under any sequence of calls made with the same rates: a DEPOSITO
    row has fee 0; a SAQUE row has fee = amount x withdrawal rate; a
    conversion row records the conversion rate, fee = source amount x rate
    and destination amount = source amount x quote used; a transfer row has
    fee = amount x transfer rate and never the same wallet as source and
    destination.  The products are those of floats, as the service computes
    them. *)
Theorem registros_coerentes_preservados amb cs : forall bd,
  registros_coerentes amb bd ->
  registros_coerentes amb (apos_chamadas amb cs bd).
Proof.
  induction cs as [|c cs IH]; intros bd H; [exact H |].
  cbn [apos_chamadas fold_left]. fold (apos_chamadas amb cs).
  apply IH. apply chamada_registros_coerentes. exact H.
Qed.

Lemma registros_coerentes_preservados_witness :
  registros_coerentes amb_exemplo
    (apos_chamadas amb_exemplo
       [Operar (Sacar "aa01" (mkOperacaoSaque "USD" 10 "k1"));
        Operar (Converter "aa01" (mkOperacaoConversao "USD" "EUR" 50 "k1"));
        Operar (Transferir "aa01"
                  (mkOperacaoTransferencia "cc03" "USD" 5 "k1"))]
       bd_exemplo).
Proof.
  apply (registros_coerentes_preservados amb_exemplo _ bd_exemplo).
  repeat split; constructor.
Defined.

Lemma chamada_nao_negativo amb c bd :
  chamada_credito_nao_negativo amb c ->
  saldos_nao_negativos bd ->
  saldos_nao_negativos (apos_chamada amb bd c).
Proof.
  intros Hc Hbd. destruct c as [k e dt st|e|op]; simpl.
  - exact Hbd.
  - rewrite snd_bloquear. exact Hbd.
  - rewrite snd_aplicar. simpl in Hc.
    destruct op as [e d|e d|e d|e d]; simpl in Hc.
    + apply depositar_nao_negativo; assumption.
    + apply sacar_nao_negativo; assumption.
    + apply converter_nao_negativo; assumption.
    + apply transferir_nao_negativo; assumption.
Qed.

(** X16. When calls run one after another and none credits a negative
    amount, no balance ever becomes negative: if every stored balance is
    non-negative at the start, it is so after any sequence of creations,
    blockings, deposits, withdrawals, conversions and transfers. *)
Theorem saldos_nao_negativos_em_sequencia amb cs : forall bd,
  Forall (chamada_credito_nao_negativo amb) cs ->
  saldos_nao_negativos bd ->
  saldos_nao_negativos (apos_chamadas amb cs bd).
Proof.
  induction cs as [|c cs IH]; intros bd Hcs Hbd; [exact Hbd |].
  apply Forall_cons in Hcs as [Hc Hcs].
  cbn [apos_chamadas fold_left]. fold (apos_chamadas amb cs).
  apply IH; [exact Hcs |]. apply chamada_nao_negativo; assumption.
Qed.

Lemma saldos_nao_negativos_em_sequencia_witness :
  saldos_nao_negativos
    (apos_chamadas amb_exemplo
       [Operar (Sacar "aa01" (mkOperacaoSaque "USD" 60 "k1"));
        Bloquear "cc03";
        Operar (Sacar "aa01" (mkOperacaoSaque "USD" 60 "k1"));
        Operar (Depositar "cc03" (mkOperacaoDeposito "EUR" 3))]
       bd_exemplo).
Proof.
  apply (saldos_nao_negativos_em_sequencia amb_exemplo _ bd_exemplo).
  - repeat constructor. simpl. discriminate.
  - exact bd_exemplo_nao_negativo.
Defined.

(** ** Listing the balances of a wallet *)

Lemma menor_id_total : Total menor_id.
Proof. intros a b. unfold menor_id. lia. Qed.

Lemma ordenar_por_id_ordenada ms : Sorted menor_id (ordenar_por_id ms).
Proof.
  unfold ordenar_por_id.
  apply (@Sorted_merge_sort _ menor_id menor_id_dec menor_id_total).
Qed.

Lemma ordenar_por_id_permutacao ms : ordenar_por_id ms ≡ₚ ms.
Proof. unfold ordenar_por_id. apply merge_sort_Permutation. Qed.

Lemma buscar_saldos_eq e bd :
  CarteiraServiceConsultas.buscar_saldos e bd =
  match carteira_de bd e with
  | None => (Raise CarteiraNaoEncontrada, bd)
  | Some _ =>
      (Ok (List.map (fun m => mkSaldo (fst m) (saldo bd e (snd m)))
             (ordenar_por_id (moeda bd))), bd)
  end.
Proof.
  unfold CarteiraServiceConsultas.buscar_saldos, bind, buscar_por_endereco,
    carteira_de.
  destruct (List.find _ (carteira bd)); [| reflexivity].
  unfold listar_saldos, ret. rewrite List.map_map. reflexivity.
Qed.

(** X17. [buscar_saldos] raises "carteira nao encontrada" for an address
    without wallet; for a wallet it returns, without changing the database,
    one entry per row of the currency table (a rearrangement of the table in
    non-decreasing order of currency identifier), each with the stored
    balance of the wallet in that currency, 0 when it has none. *)
Theorem buscar_saldos_lista_todas_as_moedas e bd :
  match carteira_de bd e with
  | None =>
      CarteiraServiceConsultas.buscar_saldos e bd
      = (Raise CarteiraNaoEncontrada, bd)
  | Some _ =>
      exists ms,
        ms ≡ₚ moeda bd /\
        Sorted menor_id ms /\
        CarteiraServiceConsultas.buscar_saldos e bd
        = (Ok (List.map (fun m => mkSaldo (fst m) (saldo bd e (snd m))) ms),
           bd) /\
        length (List.map (fun m => mkSaldo (fst m) (saldo bd e (snd m))) ms)
        = length (moeda bd)
  end.
Proof.
  rewrite buscar_saldos_eq. destruct (carteira_de bd e); [| reflexivity].
  exists (ordenar_por_id (moeda bd)).
  split; [apply ordenar_por_id_permutacao |].
  split; [apply ordenar_por_id_ordenada |].
  split; [reflexivity |].
  rewrite length_map. apply Permutation_length, ordenar_por_id_permutacao.
Qed.




(** ** Creating a wallet *)




(** ** The routes *)

Lemma tentar_eq {A : Type} (m : M A) codigo bd :
  CarteiraRouter.tentar m codigo bd =
  (match fst (m bd) with
   | Ok a => CarteiraRouter.Corpo a
   | Raise err => CarteiraRouter.HTTPException codigo err
   end, snd (m bd)).
Proof.
  unfold CarteiraRouter.tentar. destruct (m bd) as [[a|err] bd']; reflexivity.
Qed.

Lemma rota_eq amb op bd :
  rota amb op bd =
  (match fst (aplicar amb op bd) with
   | None => 200
   | Some _ => 400
   end, snd (aplicar amb op bd)).
Proof.
  rewrite fst_aplicar, snd_aplicar.
  destruct op as [e d|e d|e d|e d]; unfold rota.
  - unfold CarteiraRouter.realizar_deposito. rewrite tentar_eq.
    destruct (fst (depositar e d bd)); reflexivity.
  - unfold CarteiraRouter.realizar_saque. rewrite tentar_eq.
    destruct (fst (sacar amb e d bd)); reflexivity.
  - unfold CarteiraRouter.realizar_conversao. rewrite tentar_eq.
    destruct (fst (converter amb e d bd)); reflexivity.
  - unfold CarteiraRouter.realizar_transferencia. rewrite tentar_eq.
    destruct (fst (transferir amb e d bd)); reflexivity.
Qed.

Lemma aplicar_falha amb op bd err :
  fst (aplicar amb op bd) = Some err -> snd (aplicar amb op bd) = bd.
Proof.
  rewrite fst_aplicar, snd_aplicar.
  destruct op as [e d|e d|e d|e d]; intros H; apply erro_Some in H.
  - eapply depositar_falha; eassumption.
  - eapply sacar_falha; eassumption.
  - eapply converter_falha; eassumption.
  - eapply transferir_falha; eassumption.
Qed.

(** X20. The routes of deposit, withdrawal, conversion and transfer answer
    200 when the service returns and 400 for every error it raises, never
    404: a withdrawal, conversion or transfer for an address without wallet
    is answered 400; and an answer 400 leaves the database unchanged. *)
Theorem rotas_de_operacao_respondem_200_ou_400 amb op bd :
  (fst (rota amb op bd) = 200 \/ fst (rota amb op bd) = 400) /\
  (fst (rota amb op bd) = 400 -> snd (rota amb op bd) = bd) /\
  (forall e,
     carteira_de bd e = None ->
     (forall d, rota amb (Sacar e d) bd = (400, bd)) /\
     (forall d, rota amb (Converter e d) bd = (400, bd)) /\
     (forall d, rota amb (Transferir e d) bd = (400, bd))).
Proof.
  split; [| split].
  - rewrite rota_eq. cbn [fst].
    destruct (fst (aplicar amb op bd)); [right | left]; reflexivity.
  - rewrite rota_eq. cbn [fst snd].
    destruct (fst (aplicar amb op bd)) as [err|] eqn:E; [| discriminate].
    intros _. apply (aplicar_falha amb op bd err E).
  - intros e Hnone. repeat split; intros d; rewrite rota_eq, fst_aplicar,
      snd_aplicar.
    + rewrite sacar_eq, Hnone. reflexivity.
    + rewrite converter_eq, Hnone. reflexivity.
    + rewrite transferir_eq, Hnone. reflexivity.
Qed.

Lemma rotas_de_operacao_respondem_200_ou_400_witness :
  rota amb_exemplo (Sacar "zz99" (mkOperacaoSaque "USD" 10 "k1")) bd_exemplo
  = (400, bd_exemplo).
Proof.
  destruct (proj2 (proj2 (rotas_de_operacao_respondem_200_ou_400 amb_exemplo
              (Depositar "aa01" (mkOperacaoDeposito "USD" 1)) bd_exemplo))
              "zz99" eq_refl) as (Hs & _ & _).
  apply Hs.
Defined.

Lemma servico_buscar_por_endereco_eq e bd :
  CarteiraServiceConsultas.buscar_por_endereco e bd =
  match carteira_de bd e with
  | None => (Raise CarteiraNaoEncontrada, bd)
  | Some row => (Ok (como_carteira row), bd)
  end.
Proof.
  unfold CarteiraServiceConsultas.buscar_por_endereco, bind,
    buscar_por_endereco, carteira_de.
  destruct (List.find _ (carteira bd)); reflexivity.
Qed.

(** X21. The routes that read a wallet, list its balances or block it answer
    404 with "carteira nao encontrada", and change nothing, exactly when the
    address has no wallet; for a wallet, reading and listing answer 200 and
    change nothing, and blocking answers 200 with status BLOQUEADA. *)
Theorem rotas_de_carteira_respondem_404 e bd :
  match carteira_de bd e with
  | None =>
      CarteiraRouter.buscar_carteira e bd
      = (CarteiraRouter.HTTPException 404 CarteiraNaoEncontrada, bd) /\
      CarteiraRouter.listar_saldos_carteira e bd
      = (CarteiraRouter.HTTPException 404 CarteiraNaoEncontrada, bd) /\
      CarteiraRouter.bloquear_carteira e bd
      = (CarteiraRouter.HTTPException 404 CarteiraNaoEncontrada, bd)
  | Some row =>
      CarteiraRouter.buscar_carteira e bd
      = (CarteiraRouter.Corpo (como_carteira row), bd) /\
      CarteiraRouter.status_code_de
        (fst (CarteiraRouter.listar_saldos_carteira e bd)) = 200 /\
      snd (CarteiraRouter.listar_saldos_carteira e bd) = bd /\
      fst (CarteiraRouter.bloquear_carteira e bd)
      = CarteiraRouter.Corpo
          (mkCarteira (endereco_carteira row) (data_criacao row) BLOQUEADA)
  end.
Proof.
  unfold CarteiraRouter.buscar_carteira, CarteiraRouter.listar_saldos_carteira,
    CarteiraRouter.bloquear_carteira.
  rewrite !tentar_eq, buscar_saldos_eq, servico_buscar_por_endereco_eq.
  unfold bind. rewrite bloquear_eq.
  destruct (carteira_de bd e) as [row|]; repeat split.
Qed.

(** ** Interleaved withdrawals: no debit is lost *)











(** ** A transfer of a negative amount *)


